(** * judge/views/blog.py: visibility and feed-composition rules

    A shallow embedding of the query-building code of the blog views
    (PostList, TicketFeed, PostView, FeedView) over a small relational
    model of the ORM: a queryset is the list of rows it evaluates to,
    [Q] objects are data combined with [|] and [&], and a lookup that
    spans a many-to-many relation is evaluated on the joined rows. *)

From Stdlib Require Import ZArith List Bool String Ascii Lia.
From Stdlib Require Import DecimalString DecimalZ Sorted Permutation.
From stdpp Require Import base decidable list sorting gmap.
Import ListNotations.

Local Open Scope Z_scope.

(** ** Exceptions *)

Inductive exn : Type :=
| Http404
| PermissionDenied
| AttributeError
| ValueError.

Inductive result (A : Type) : Type :=
| Ok (a : A)
| Raise (e : exn).
Arguments Ok {A} a.
Arguments Raise {A} e.

Global Instance result_ret : MRet result := fun A a => Ok a.
Global Instance result_bind : MBind result := fun A B k m =>
  match m with
  | Ok a => k a
  | Raise e => Raise e
  end.

(** ** The relational model *)

Definition pk_in (pk : Z) (pks : list Z) : bool := existsb (Z.eqb pk) pks.

Module Organization.
Record t : Type := { id : Z; admins : list Z }.
End Organization.

Module Profile.
(** [organizations] holds the primary keys of [profile.organizations.all()]. *)
Record t : Type := { id : Z; organizations : list Z }.
End Profile.

Module User.
Record t : Type := { is_authenticated : bool; is_staff : bool }.
End User.

Module Request.
Record t : Type :=
  { user : User.t;
    profile : option Profile.t;
    organization : option Organization.t }.
End Request.

Module BlogPost.
Record t : Type :=
  { id : Z;
    visible : bool;
    publish_on : Z;
    sticky : bool;
    is_organization_private : bool;
    authors : list Z;
    organizations : list Organization.t }.
End BlogPost.

Module Ticket.
Record t : Type :=
  { id : Z;
    user : Z;
    assignees : list Z;
    is_open : bool }.
End Ticket.

Module Contest.
Record t : Type :=
  { id : Z;
    is_visible : bool;
    is_organization_private : bool;
    organizations : list Organization.t;
    start_time : Z;
    end_time : Z }.
End Contest.

Module Comment.
Record t : Type := { page : string; hidden : bool }.
End Comment.

(** ** Querysets

    [filter] makes one join per call: every lookup of the call that goes
    through the multi-valued relation is tested on the same related row,
    and the model row is returned once per joined row that passes.  A row
    with no related row is joined with NULL, on which lookups fail. *)

Module ORM.
Section QuerySet.
Context {M R : Type}.
Variable related : M -> list R.

Inductive Q : Type :=
| Field (f : M -> bool)
| Related (f : R -> bool)
| Or (a b : Q)
| And (a b : Q).

Fixpoint spans (q : Q) : bool :=
  match q with
  | Field _ => false
  | Related _ => true
  | Or a b | And a b => spans a || spans b
  end.

Fixpoint holds (q : Q) (m : M) (r : option R) : bool :=
  match q with
  | Field f => f m
  | Related f => match r with Some x => f x | None => false end
  | Or a b => holds a m r || holds b m r
  | And a b => holds a m r && holds b m r
  end.

Definition joined (q : Q) (m : M) : list (option R) :=
  if spans q then
    match related m with
    | [] => [None]
    | rs => map Some rs
    end
  else [None].

Definition filter (q : Q) (qs : list M) : list M :=
  flat_map (fun m => map (fun _ => m) (List.filter (holds q m) (joined q m))) qs.

Definition order_by (leb : M -> M -> bool) (qs : list M) : list M :=
  merge_sort (fun a b => Is_true (leb a b)) qs.

Definition prefetch_related (qs : list M) : list M := qs.
Definition select_related (qs : list M) : list M := qs.
End QuerySet.
Arguments Q : clear implicits.
End ORM.

Import ORM.

(** ** Helpers shared by the views *)

(** [obj in related_manager.all()] for a request profile that may be
    [None]: instances compare by primary key, [None] equals no row. *)
Definition profile_in (profile : option Profile.t) (pks : list Z) : bool :=
  match profile with
  | Some p => pk_in (Profile.id p) pks
  | None => false
  end.

(** [request.profile.organizations.all()]: attribute access on [None] raises. *)
Definition profile_organizations (request : Request.t) : result (list Z) :=
  match Request.profile request with
  | Some p => Ok (Profile.organizations p)
  | None => Raise AttributeError
  end.

Definition same_organization (a b : Organization.t) : bool :=
  Organization.id a =? Organization.id b.

(** A model without a multi-valued relation in its lookups. *)
Definition no_relation {M : Type} : M -> list Empty_set := fun _ => [].

(** [object_list[bottom:top]], the rows a paginator hands to a page. *)
Definition slice {A : Type} (bottom top : nat) (l : list A) : list A :=
  firstn (top - bottom) (skipn bottom l).

Fixpoint foldM {A B : Type} (f : A -> B -> result A) (l : list B) (a : A) : result A :=
  match l with
  | [] => Ok a
  | b :: l' => a' ← f a b; foldM f l' a'
  end.

(** ** FeedView *)

Module FeedView.
Section FeedView.
Variable now : Z.
(** [Contest.get_visible_contests(user, show_own_contests_only=True)] *)
Variable get_visible_contests : User.t -> list Contest.t.

Definition start_time_asc (a b : Contest.t) : bool :=
  Contest.start_time a <=? Contest.start_time b.

Definition visible_contests (request : Request.t) : list Contest.t :=
  let visible_contests :=
    order_by start_time_asc
      (filter Contest.organizations (Field Contest.is_visible)
         (get_visible_contests (Request.user request))) in
  match Request.organization request with
  | Some organization =>
      filter Contest.organizations
        (And (Field Contest.is_organization_private)
             (Related (fun o => same_organization o organization)))
        visible_contests
  | None => visible_contests
  end.

Definition current_contests (request : Request.t) : list Contest.t :=
  filter Contest.organizations
    (And (Field (fun c => Contest.start_time c <=? now))
         (Field (fun c => now <? Contest.end_time c)))
    (visible_contests request).

Definition future_contests (request : Request.t) : list Contest.t :=
  filter Contest.organizations
    (Field (fun c => now <? Contest.start_time c))
    (visible_contests request).
End FeedView.
End FeedView.

(** ** PostList *)

Module PostList.
Section PostList.
Variable now : Z.
Variable BlogPost_objects : list BlogPost.t.
Variable Comment_objects : list Comment.t.

(** [order_by("-sticky", "-publish_on")] *)
Definition sticky_publish_desc (a b : BlogPost.t) : bool :=
  match BlogPost.sticky a, BlogPost.sticky b with
  | true, false => true
  | false, true => false
  | _, _ => BlogPost.publish_on b <=? BlogPost.publish_on a
  end.

Definition get_queryset (request : Request.t) : result (list BlogPost.t) :=
  let queryset :=
    prefetch_related
      (order_by sticky_publish_desc
         (filter BlogPost.organizations
            (And (Field BlogPost.visible)
                 (Field (fun p => BlogPost.publish_on p <=? now)))
            BlogPost_objects)) in
  let filter_ := Field (fun p => negb (BlogPost.is_organization_private p)) in
  filter_ ←
    (if User.is_authenticated (Request.user request) then
       orgs ← profile_organizations request;
       Ok (Or filter_ (Related (fun o => pk_in (Organization.id o) orgs)))
     else Ok filter_);
  let filter_ :=
    match Request.organization request with
    | Some organization =>
        And filter_ (Related (fun o => same_organization o organization))
    | None => filter_
    end in
  let queryset := filter BlogPost.organizations filter_ queryset in
  Ok queryset.

(** ["b:%d" % post.id] *)
Definition comment_page (id : Z) : string :=
  String.append "b:" (NilZero.string_of_int (Z.to_int id)).

(** [page[n:]] *)
Fixpoint slice_from (n : nat) (s : string) : string :=
  match n, s with
  | S n', String _ s' => slice_from n' s'
  | _, _ => s
  end.

(** [int(s)] on a plain decimal numeral; anything else raises. *)
Definition int (s : string) : result Z :=
  match NilZero.int_of_string s with
  | Some d => Ok (Z.of_int d)
  | None => Raise ValueError
  end.

Definition page_in (pages : list string) (c : Comment.t) : bool :=
  existsb (String.eqb (Comment.page c)) pages.

(** [.values_list("page").annotate(count=Count("page")).order_by()]:
  one row per distinct page with the number of rows in its group. *)
Definition values_list_page_count (qs : list Comment.t) : list (string * nat) :=
  map (fun page =>
         (page, length (List.filter (fun c => String.eqb (Comment.page c) page) qs)))
      (nodup string_dec (map Comment.page qs)).

Definition post_comment_counts (posts : list BlogPost.t) : result (gmap Z nat) :=
  let pages := map (fun post => comment_page (BlogPost.id post)) posts in
  let rows :=
    values_list_page_count
      (filter no_relation
         (And (Field (page_in pages)) (Field (fun c => negb (Comment.hidden c))))
         Comment_objects) in
  foldM (fun d row =>
           let '(page, count) := row in
           k ← int (slice_from 2 page);
           Ok (<[k := count]> d))
        rows ∅.
End PostList.
End PostList.

(** ** TicketFeed *)

Module TicketFeed.
Section TicketFeed.
Variable Ticket_objects : list Ticket.t.
(** [judge.utils.tickets.filter_visible_tickets(queryset, user, profile)] *)
Variable filter_visible_tickets :
  list Ticket.t -> User.t -> option Profile.t -> list Ticket.t.

(** [order_by("-id")] *)
Definition id_desc (a b : Ticket.t) : bool := Ticket.id b <=? Ticket.id a.

(** [Q(user=profile) | Q(assignees__in=[profile])] *)
Definition own_filter (profile : option Profile.t) : Q Ticket.t Z :=
  Or (Field (fun t => profile_in profile [Ticket.user t]))
     (Related (fun a => profile_in profile [a])).

(** The local [tickets] of the staff branch. *)
Definition tickets : list Ticket.t :=
  select_related
    (prefetch_related
       (filter Ticket.assignees (Field Ticket.is_open)
          (order_by id_desc Ticket_objects))).

Definition get_queryset (request : Request.t) (is_own : bool) : list Ticket.t :=
  let profile := Request.profile request in
  if is_own then
    if User.is_authenticated (Request.user request) then
      select_related
        (prefetch_related
           (order_by id_desc
              (filter Ticket.assignees
                 (And (own_filter profile) (Field Ticket.is_open))
                 Ticket_objects)))
    else []
  else
    if User.is_staff (Request.user request) then
      filter_visible_tickets tickets (Request.user request) profile
    else [].
End TicketFeed.
End TicketFeed.

(** ** PostView *)

Module PostView.
Record context : Type :=
  { valid_user_to_show_edit : bool;
    valid_org_to_show_edit : list Organization.t }.

Definition set_valid_user (b : bool) (c : context) : context :=
  {| valid_user_to_show_edit := b;
     valid_org_to_show_edit := valid_org_to_show_edit c |}.

Definition append_valid_org (o : Organization.t) (c : context) : context :=
  {| valid_user_to_show_edit := valid_user_to_show_edit c;
     valid_org_to_show_edit := valid_org_to_show_edit c ++ [o] |}.

Definition get_context_data (request : Request.t) (object : BlogPost.t)
  : result context :=
  let context := {| valid_user_to_show_edit := false; valid_org_to_show_edit := [] |} in
  let context :=
    if profile_in (Request.profile request) (BlogPost.authors object)
    then set_valid_user true context else context in
  let context :=
    fold_left
      (fun context org =>
         if profile_in (Request.profile request) (Organization.admins org)
         then set_valid_user true context else context)
      (BlogPost.organizations object) context in
  if valid_user_to_show_edit context then
    foldM
      (fun context post_org =>
         orgs ← profile_organizations request;
         Ok (if pk_in (Organization.id post_org) orgs
             then append_valid_org post_org context else context))
      (BlogPost.organizations object) context
  else Ok context.

Section GetObject.
(** [BlogPost.can_see(user)] *)
Variable can_see : BlogPost.t -> User.t -> bool.

Definition get_object (super_get_object : result BlogPost.t) (request : Request.t)
  : result BlogPost.t :=
  post ← super_get_object;
  if negb (can_see post (Request.user request)) then Raise Http404 else Ok post.
End GetObject.
End PostView.

(** ** Database queries

    Building a queryset runs nothing; iterating it runs one SQL query.  A
    computation that reads the database threads the number of queries run
    so far. *)

Module Db.
Definition t (A : Type) : Type := nat -> result A * nat.

(** Iterating [queryset]: its rows, at the cost of one query. *)
Definition evaluate {A : Type} (queryset : list A) : t (list A) :=
  fun queries => (Ok queryset, S queries).

(** A computation on rows already fetched. *)
Definition pure {A : Type} (r : result A) : t A := fun queries => (r, queries).

Definition bind {A B : Type} (m : t A) (k : A -> t B) : t B :=
  fun queries =>
    match m queries with
    | (Ok a, queries') => k a queries'
    | (Raise e, queries') => (Raise e, queries')
    end.
End Db.

Module PostListQueries.
Section PostListQueries.
Variable Comment_objects : list Comment.t.

(** The dict comprehension of [PostList.get_context_data] with its database
    access explicit: the grouped queryset is built from the posts of the
    page and iterated once by the comprehension. *)
Definition post_comment_counts (posts : list BlogPost.t) : Db.t (gmap Z nat) :=
  let pages := map (fun post => PostList.comment_page (BlogPost.id post)) posts in
  let queryset :=
    PostList.values_list_page_count
      (filter no_relation
         (And (Field (PostList.page_in pages))
              (Field (fun c => negb (Comment.hidden c))))
         Comment_objects) in
  Db.bind (Db.evaluate queryset)
    (fun rows =>
       Db.pure
         (foldM (fun d row =>
                   let '(page, count) := row in
                   k ← PostList.int (PostList.slice_from 2 page);
                   Ok (<[k := count]> d))
                rows ∅)).
End PostListQueries.
End PostListQueries.

(** ** Comment pages of the post views *)

(** [str(n)] of an integer, as ["%s" % n] prints it. *)
Definition str (n : Z) : string := NilZero.string_of_int (Z.to_int n).

(** [PostList.get_comment_page(post)]: ["b:%s" % post.id] *)
Definition PostList_get_comment_page (post : BlogPost.t) : string :=
  String.append "b:" (str (BlogPost.id post)).

(** [PostView.get_comment_page()]: ["b:%s" % self.object.id] *)
Definition PostView_get_comment_page (object : BlogPost.t) : string :=
  String.append "b:" (str (BlogPost.id object)).

(** ** FeedView.get_context_data: clarifications and top lists *)

Module ContestProblemClarification.
Record t : Type := { problem : Z; date : Z }.
End ContestProblemClarification.

Module ContestParticipation.
Record t : Type := { contest : Contest.t }.
End ContestParticipation.

Module FeedContext.
(** The keys of the context the clarification block writes; a key that is
    not set is [None]. *)
Record t : Type :=
  { has_clarifications : bool;
    clarifications : option (list ContestProblemClarification.t);
    can_edit_contest : option bool }.

Section Clarifications.
Variable ContestProblemClarification_objects : list ContestProblemClarification.t.
(** [profile.current_contest] *)
Variable current_contest : Profile.t -> option ContestParticipation.t.
(** [contest.contest_problems.all()], as primary keys *)
Variable contest_problems : Contest.t -> list Z.
(** [contest.is_editable_by(user)] *)
Variable is_editable_by : Contest.t -> User.t -> bool.

(** [order_by("-date")] *)
Definition date_desc (a b : ContestProblemClarification.t) : bool :=
  ContestProblemClarification.date b <=? ContestProblemClarification.date a.

Definition get_context_data (request : Request.t) : result t :=
  let context :=
    {| has_clarifications := false; clarifications := None; can_edit_contest := None |} in
  if User.is_authenticated (Request.user request) then
    participation ←
      match Request.profile request with
      | Some p => Ok (current_contest p)
      | None => Raise AttributeError
      end;
    match participation with
    | Some participation =>
        let clarifications :=
          filter no_relation
            (Field (fun c =>
                      pk_in (ContestProblemClarification.problem c)
                        (contest_problems (ContestParticipation.contest participation))))
            ContestProblemClarification_objects in
        let context :=
          {| has_clarifications := (0 <? length clarifications)%nat;
             clarifications := FeedContext.clarifications context;
             can_edit_contest := can_edit_contest context |} in
        let context :=
          {| has_clarifications := has_clarifications context;
             clarifications := Some (order_by date_desc clarifications);
             can_edit_contest := can_edit_contest context |} in
        if is_editable_by (ContestParticipation.contest participation)
             (Request.user request)
        then Ok {| has_clarifications := has_clarifications context;
                   clarifications := FeedContext.clarifications context;
                   can_edit_contest := Some true |}
        else Ok context
    | None => Ok context
    end
  else Ok context.
End Clarifications.

Section TopLists.
(** A row of the profile table; the columns the top lists read are taken
    through [is_unlisted] and the two orderings. *)
Context {Row : Type}.
Variable Profile_objects : list Row.
(** [organization.members] *)
Variable members : Organization.t -> list Row.
Variable is_unlisted : Row -> bool.
(** [order_by("-rating")] and [order_by("-performance_points")] *)
Variable rating_desc : Row -> Row -> bool.
Variable performance_points_desc : Row -> Row -> bool.

Definition profile_queryset (request : Request.t) : list Row :=
  match Request.organization request with
  | Some organization => members organization
  | None => Profile_objects
  end.

Definition top_rated (request : Request.t) : list Row :=
  firstn 10
    (order_by rating_desc
       (filter no_relation (Field (fun p => negb (is_unlisted p)))
          (profile_queryset request))).

Definition top_scorer (request : Request.t) : list Row :=
  firstn 10
    (order_by performance_points_desc
       (filter no_relation (Field (fun p => negb (is_unlisted p)))
          (profile_queryset request))).
End TopLists.
End FeedContext.

(** * Specification predicates

    The rules of the specification, written from its words, against which
    the querysets above are compared. *)

Module Spec.
(** An authenticated request carries the profile of its user. *)
Definition has_profile (request : Request.t) : bool :=
  implb (User.is_authenticated (Request.user request))
        (match Request.profile request with Some _ => true | None => false end).

(** "viewer belongs to [o]" *)
Definition member_of (request : Request.t) (o : Organization.t) : bool :=
  match Request.profile request with
  | Some p => pk_in (Organization.id o) (Profile.organizations p)
  | None => false
  end.

(** "not organization-private, or the viewer is authenticated and belongs
    to at least one of the post's organizations" *)
Definition org_privacy (request : Request.t) (p : BlogPost.t) : bool :=
  negb (BlogPost.is_organization_private p)
  || (User.is_authenticated (Request.user request)
      && existsb (member_of request) (BlogPost.organizations p)).

(** "visible=True, publish_on <= now, and the org-privacy predicate holds" *)
Definition post_visible (now : Z) (request : Request.t) (p : BlogPost.t) : bool :=
  BlogPost.visible p && (BlogPost.publish_on p <=? now) && org_privacy request p.

(** "[org] is attached to the post" *)
Definition attached (org : Organization.t) (orgs : list Organization.t) : bool :=
  existsb (fun o => same_organization o org) orgs.

(** What the post list applies under an active organization context. *)
Definition post_visible_in (now : Z) (request : Request.t) (org : Organization.t)
                           (p : BlogPost.t) : bool :=
  BlogPost.visible p && (BlogPost.publish_on p <=? now)
  && attached org (BlogPost.organizations p)
  && (negb (BlogPost.is_organization_private p)
      || (User.is_authenticated (Request.user request) && member_of request org)).

(** "ticket where the viewer is owner or assignee" *)
Definition own_ticket (profile : Profile.t) (t : Ticket.t) : bool :=
  (Ticket.user t =? Profile.id profile) || pk_in (Profile.id profile) (Ticket.assignees t).

(** "direct author OR an admin of any organization attached to the post" *)
Definition can_edit (request : Request.t) (p : BlogPost.t) : bool :=
  profile_in (Request.profile request) (BlogPost.authors p)
  || existsb (fun o => profile_in (Request.profile request) (Organization.admins o))
             (BlogPost.organizations p).

(** "the number of comments with hidden=False whose page key equals [key]" *)
Definition comment_count (comments : list Comment.t) (key : string) : nat :=
  length (List.filter
            (fun c => negb (Comment.hidden c) && String.eqb (Comment.page c) key)
            comments).

(** "scoped to the active organization context when one is present": the
    active organization is attached to the contest *)
Definition in_scope (request : Request.t) (c : Contest.t) : bool :=
  match Request.organization request with
  | Some org => attached org (Contest.organizations c)
  | None => true
  end.
End Spec.

(** The number of times the post query returns a stored post that passes
    the visible/published filter, for an authenticated viewer outside an
    organization context: a public post once per attached organization (once
    if it has none), a private post once per attached organization the
    viewer belongs to. *)
Definition copies (request : Request.t) (p : BlogPost.t) : nat :=
  match BlogPost.organizations p with
  | [] => if BlogPost.is_organization_private p then 0 else 1
  | orgs =>
      if BlogPost.is_organization_private p
      then length (List.filter (Spec.member_of request) orgs)
      else length orgs
  end.

(** * Concrete requests and rows used in the examples below *)

Module Cases.
Definition anonymous : User.t :=
  {| User.is_authenticated := false; User.is_staff := false |}.
Definition member : User.t :=
  {| User.is_authenticated := true; User.is_staff := false |}.
Definition staff : User.t :=
  {| User.is_authenticated := true; User.is_staff := true |}.

Definition org_a : Organization.t := {| Organization.id := 1; Organization.admins := [7] |}.
Definition org_b : Organization.t := {| Organization.id := 2; Organization.admins := [] |}.

Definition profile_7 (orgs : list Z) : Profile.t :=
  {| Profile.id := 7; Profile.organizations := orgs |}.

Definition request_anonymous (org : option Organization.t) : Request.t :=
  {| Request.user := anonymous; Request.profile := None; Request.organization := org |}.
Definition request_member (orgs : list Z) (org : option Organization.t) : Request.t :=
  {| Request.user := member; Request.profile := Some (profile_7 orgs);
     Request.organization := org |}.
Definition request_staff : Request.t :=
  {| Request.user := staff; Request.profile := Some (profile_7 []);
     Request.organization := None |}.

Definition post (id publish_on : Z) (sticky private : bool)
                (authors : list Z) (orgs : list Organization.t) : BlogPost.t :=
  {| BlogPost.id := id; BlogPost.visible := true; BlogPost.publish_on := publish_on;
     BlogPost.sticky := sticky; BlogPost.is_organization_private := private;
     BlogPost.authors := authors; BlogPost.organizations := orgs |}.

Definition public_post : BlogPost.t := post 1 0 false false [] [].
Definition private_post : BlogPost.t := post 2 3 false true [] [org_a].
Definition sticky_post : BlogPost.t := post 3 1 true false [7] [org_a; org_b].

Definition ticket (id user : Z) (assignees : list Z) (is_open : bool) : Ticket.t :=
  {| Ticket.id := id; Ticket.user := user; Ticket.assignees := assignees;
     Ticket.is_open := is_open |}.

Definition comment (page : string) (hidden : bool) : Comment.t :=
  {| Comment.page := page; Comment.hidden := hidden |}.

Definition contest (id start_time end_time : Z) (private : bool)
                   (orgs : list Organization.t) : Contest.t :=
  {| Contest.id := id; Contest.is_visible := true;
     Contest.is_organization_private := private; Contest.organizations := orgs;
     Contest.start_time := start_time; Contest.end_time := end_time |}.
End Cases.

(** Rows of a profile table for the top lists. *)
Module RankCases.
Record row : Type :=
  { name : Z; rating : Z; performance_points : Z; is_unlisted : bool }.

Definition rating_desc (a b : row) : bool := rating b <=? rating a.
Definition performance_points_desc (a b : row) : bool :=
  performance_points b <=? performance_points a.

Definition mk (name rating points : Z) (unlisted : bool) : row :=
  {| name := name; rating := rating; performance_points := points;
     is_unlisted := unlisted |}.

Definition rows : list row :=
  [mk 1 1500 10 false; mk 2 2100 5 false; mk 3 900 70 true; mk 4 1200 30 false;
   mk 5 1800 20 false; mk 6 1000 15 false; mk 7 1700 90 false; mk 8 1300 11 false;
   mk 9 1100 12 false; mk 10 1900 13 false; mk 11 1600 14 false; mk 12 800 99 false;
   mk 13 2000 1 false].
End RankCases.

(** A viewer inside a contest with two problems, and the clarifications
    table. *)
Module ClarificationCases.
Definition clarification (problem date : Z) : ContestProblemClarification.t :=
  {| ContestProblemClarification.problem := problem;
     ContestProblemClarification.date := date |}.

Definition objs : list ContestProblemClarification.t :=
  [clarification 1 5; clarification 3 6; clarification 2 9; clarification 1 7].

Definition current_contest (p : Profile.t) : option ContestParticipation.t :=
  if Profile.id p =? 7
  then Some {| ContestParticipation.contest := Cases.contest 1 0 50 false [] |}
  else None.

Definition contest_problems (c : Contest.t) : list Z :=
  if Contest.id c =? 1 then [1; 2] else [].

Definition is_editable_by (c : Contest.t) (u : User.t) : bool := User.is_staff u.
End ClarificationCases.

(** * Properties *)

(** ** Facts about querysets *)

Section QuerySetFacts.
Context {M R : Type}.
Variable related : M -> list R.

Lemma in_filter (q : Q M R) (qs : list M) (m : M) :
  In m (filter related q qs) <->
  In m qs /\ exists r, In r (joined related q m) /\ holds q m r = true.
Proof.
  unfold filter. rewrite in_flat_map. split.
  - intros (m' & Hm' & Hin). apply in_map_iff in Hin as (r & <- & Hr).
    apply filter_In in Hr as [Hr Hh]. eauto.
  - intros (Hm & r & Hr & Hh). exists m. split; [exact Hm|].
    apply in_map_iff. exists r. split; [reflexivity|].
    apply filter_In. auto.
Qed.

(** A call whose lookups stay on the model's own columns makes no join. *)
Lemma filter_no_join (q : Q M R) (qs : list M) :
  spans q = false ->
  filter related q qs = List.filter (fun m => holds q m None) qs.
Proof.
  intros Hs. unfold filter, joined. rewrite Hs. cbv iota.
  induction qs as [|m qs IH]; [reflexivity|].
  cbn [flat_map List.filter] in IH |- *. rewrite IH.
  destruct (holds q m None); reflexivity.
Qed.

Lemma in_filter_field (f : M -> bool) (qs : list M) (m : M) :
  In m (filter related (Field f) qs) <-> In m qs /\ f m = true.
Proof. rewrite filter_no_join by reflexivity. apply filter_In. Qed.

Lemma in_filter_field2 (f g : M -> bool) (qs : list M) (m : M) :
  In m (filter related (And (Field f) (Field g)) qs) <->
  In m qs /\ f m = true /\ g m = true.
Proof.
  rewrite filter_no_join by reflexivity. rewrite filter_In. simpl.
  rewrite andb_true_iff. tauto.
Qed.

Lemma in_order_by (leb : M -> M -> bool) (qs : list M) (m : M) :
  In m (order_by leb qs) <-> In m qs.
Proof.
  unfold order_by. split; apply Permutation_in.
  - apply merge_sort_Permutation.
  - symmetry. apply merge_sort_Permutation.
Qed.

Section Ordered.
Variable leb : M -> M -> bool.
Hypothesis leb_trans : forall a b c, leb a b = true -> leb b c = true -> leb a c = true.
Hypothesis leb_total : forall a b, leb a b = true \/ leb b a = true.

Lemma order_by_sorted (qs : list M) :
  StronglySorted (fun a b => leb a b = true) (order_by leb qs).
Proof.
  assert (Transitive (fun a b : M => Is_true (leb a b))) as Ht.
  { intros a b c Hab Hbc. apply Is_true_true.
    apply Is_true_true in Hab, Hbc. eauto. }
  assert (Total (fun a b : M => Is_true (leb a b))) as Hto.
  { intros a b. destruct (leb_total a b) as [H|H]; [left|right];
      apply Is_true_true; exact H. }
  pose proof (StronglySorted_merge_sort (fun a b => Is_true (leb a b)) qs) as Hs.
  unfold order_by. induction Hs as [|x l Hl IH Hx]; constructor; [exact IH|].
  eapply List.Forall_impl; [|exact Hx]. intros a Ha. apply Is_true_true. exact Ha.
Qed.

(** Filtering keeps the order: the copies of a row stay together. *)
Lemma filter_sorted (q : Q M R) (qs : list M) :
  StronglySorted (fun a b => leb a b = true) qs ->
  StronglySorted (fun a b => leb a b = true) (filter related q qs).
Proof.
  intros Hs. induction Hs as [|m l Hl IH Hm]; [constructor|].
  unfold filter. simpl. fold (filter related q l).
  induction (List.filter (holds q m) (joined related q m)) as [|r rs IHr];
    simpl; [exact IH|].
  constructor; [exact IHr|].
  apply List.Forall_app. split.
  - apply List.Forall_forall. intros x Hx. apply in_map_iff in Hx as (_ & <- & _).
    destruct (leb_total m m); assumption.
  - apply List.Forall_forall. intros x Hx. apply in_filter in Hx as [Hx _].
    rewrite List.Forall_forall in Hm. auto.
Qed.
End Ordered.

Lemma sorted_weaken (rel rel' : M -> M -> Prop) (l : list M) :
  (forall a b, rel a b -> rel' a b) ->
  StronglySorted rel l -> StronglySorted rel' l.
Proof.
  intros Himp Hs. induction Hs as [|a l Hl IH Ha]; constructor; [exact IH|].
  eapply List.Forall_impl; [|exact Ha]. intros b. apply Himp.
Qed.

(** Positions in a sorted list respect the order. *)
Lemma sorted_lookup (rel : M -> M -> Prop) (l : list M) (i j : nat) (x y : M) :
  StronglySorted rel l -> (i < j)%nat ->
  nth_error l i = Some x -> nth_error l j = Some y -> rel x y.
Proof.
  intros Hs. revert i j. induction Hs as [|a l Hl IH Ha]; intros i j Hij Hi Hj.
  - destruct i; discriminate.
  - destruct j as [|j]; [lia|]. simpl in Hj. destruct i as [|i]; simpl in Hi.
    + injection Hi as <-. rewrite List.Forall_forall in Ha.
      apply Ha. eapply nth_error_In. exact Hj.
    + apply (IH i j); [lia|assumption..].
  Qed.

Lemma in_slice (bottom top : nat) (l : list M) (m : M) :
  In m (slice bottom top l) -> In m l.
Proof.
  unfold slice. intros H.
  rewrite <- (firstn_skipn bottom l). apply in_or_app. right.
  rewrite <- (firstn_skipn (top - bottom) (skipn bottom l)).
  apply in_or_app. left. exact H.
Qed.
End QuerySetFacts.

Section JoinFacts.
Context {M R : Type}.
Variable related : M -> list R.

Lemma holds_no_span (q : Q M R) (m : M) (r r' : option R) :
  spans q = false -> holds q m r = holds q m r'.
Proof.
  induction q as [f|f|a IHa b IHb|a IHa b IHb]; simpl; intros Hs;
    try reflexivity; try discriminate;
    apply orb_false_iff in Hs as [Ha Hb]; rewrite (IHa Ha), (IHb Hb); reflexivity.
Qed.

(** Lookups are positive: what holds on the NULL row holds on every row. *)
Lemma holds_null (q : Q M R) (m : M) (x : R) :
  holds q m None = true -> holds q m (Some x) = true.
Proof.
  induction q as [f|f|a IHa b IHb|a IHa b IHb]; simpl; intros H.
  - exact H.
  - discriminate.
  - apply orb_true_iff in H as [H|H]; apply orb_true_iff; auto.
  - apply andb_true_iff in H as [Ha Hb]. apply andb_true_iff. auto.
Qed.

Lemma exists_joined (q : Q M R) (m : M) :
  (exists r, In r (joined related q m) /\ holds q m r = true) <->
  holds q m None = true \/ exists x, In x (related m) /\ holds q m (Some x) = true.
Proof.
  unfold joined. split.
  - intros (r & Hr & Hh). destruct r as [x|]; [right|left; exact Hh].
    exists x. split; [|exact Hh].
    destruct (spans q); [|destruct Hr as [Hr|[]]; discriminate].
    destruct (related m) as [|y rs]; [destruct Hr as [Hr|[]]; discriminate|].
    apply in_map_iff in Hr as (x' & [= ->] & Hx). exact Hx.
  - destruct (spans q) eqn:Hs.
    + intros [Hn|(x & Hx & Hh)].
      * destruct (related m) as [|y rs]; [exists None; simpl; auto|].
        exists (Some y). split; [left; reflexivity|]. apply holds_null. exact Hn.
      * exists (Some x). split; [|exact Hh].
        destruct (related m) as [|y rs]; [contradiction|].
        apply in_map_iff. eauto.
    + intros [Hn|(x & Hx & Hh)]; exists None; (split; [left; reflexivity|]).
      * exact Hn.
      * rewrite (holds_no_span q m None (Some x) Hs). exact Hh.
Qed.

Lemma in_filter_rows (q : Q M R) (qs : list M) (m : M) :
  In m (filter related q qs) <->
  In m qs /\
  (holds q m None = true \/ exists x, In x (related m) /\ holds q m (Some x) = true).
Proof. rewrite in_filter, exists_joined. reflexivity. Qed.
End JoinFacts.

Ltac to_prop :=
  repeat first
    [ setoid_rewrite andb_true_iff
    | setoid_rewrite orb_true_iff
    | setoid_rewrite negb_true_iff
    | setoid_rewrite existsb_exists
    | setoid_rewrite Z.leb_le
    | setoid_rewrite Z.ltb_lt
    | setoid_rewrite Z.eqb_eq ].

(** ** PostList.get_queryset *)

Section PostListFacts.
Variable now : Z.
Variable BlogPost_objects : list BlogPost.t.

Lemma sticky_publish_desc_trans (a b c : BlogPost.t) :
  PostList.sticky_publish_desc a b = true ->
  PostList.sticky_publish_desc b c = true ->
  PostList.sticky_publish_desc a c = true.
Proof.
  unfold PostList.sticky_publish_desc.
  destruct (BlogPost.sticky a), (BlogPost.sticky b), (BlogPost.sticky c);
    rewrite ?Z.leb_le; try discriminate; auto; lia.
Qed.

Lemma sticky_publish_desc_total (a b : BlogPost.t) :
  PostList.sticky_publish_desc a b = true \/ PostList.sticky_publish_desc b a = true.
Proof.
  unfold PostList.sticky_publish_desc.
  destruct (BlogPost.sticky a), (BlogPost.sticky b); rewrite ?Z.leb_le; auto; lia.
Qed.

(** With a profile on every authenticated request the query is built
    without error: one more [filter] over the ordered published posts. *)
Lemma get_queryset_ok (request : Request.t) :
  Spec.has_profile request = true ->
  exists q,
    PostList.get_queryset now BlogPost_objects request =
    Ok (filter BlogPost.organizations q
          (order_by PostList.sticky_publish_desc
             (filter BlogPost.organizations
                (And (Field BlogPost.visible)
                     (Field (fun p => BlogPost.publish_on p <=? now)))
                BlogPost_objects))).
Proof.
  destruct request as [[auth staff] prof org]. unfold Spec.has_profile. simpl.
  intros Hwf. unfold PostList.get_queryset, profile_organizations. simpl.
  destruct auth; [destruct prof as [pr|]; [|discriminate]|];
    cbn; eexists; reflexivity.
Qed.
End PostListFacts.

(** C1 as the specification words it, at a request with an active
    organization context: a public, published post that is not attached to
    the active organization satisfies the stated condition and is not listed. *)
Lemma PostList_stated_rule_fails_in_org_context :
  exists qs,
    PostList.get_queryset 10 [Cases.public_post]
      (Cases.request_anonymous (Some Cases.org_a)) = Ok qs /\
    In Cases.public_post [Cases.public_post] /\
    Spec.post_visible 10 (Cases.request_anonymous (Some Cases.org_a))
      Cases.public_post = true /\
    ~ In Cases.public_post qs.
Proof.
  exists []. repeat split; [left; reflexivity | intros []].
Qed.

(** Membership in the queryset, with and without an organization context. *)
Lemma in_get_queryset (now : Z) (objs : list BlogPost.t)
    (request : Request.t) (p : BlogPost.t) :
  Spec.has_profile request = true ->
  exists qs, PostList.get_queryset now objs request = Ok qs /\
    (In p qs <-> In p objs /\
       match Request.organization request with
       | None => Spec.post_visible now request p = true
       | Some org => Spec.post_visible_in now request org p = true
       end).
Proof.
  destruct request as [[auth staff] prof org]. unfold Spec.has_profile. simpl.
  intros Hwf. unfold PostList.get_queryset, profile_organizations. simpl.
  destruct auth; [destruct prof as [pr|]; [|discriminate]|]; destruct org as [org|];
    cbn; (eexists; split; [reflexivity|]);
    rewrite in_filter_rows; unfold prefetch_related;
    rewrite in_order_by, in_filter_field2;
    unfold Spec.post_visible, Spec.post_visible_in, Spec.org_privacy, Spec.attached,
      Spec.member_of, same_organization, pk_in; simpl; to_prop;
    firstorder (subst; eauto; congruence).
Qed.

(** C1 (amended): a post is in the PostList queryset iff it is a visible
    post published at or before now and, with no organization context
    active, the org-privacy predicate holds for the viewer; with an
    organization context active, iff the active organization is attached to
    the post and the post is not organization-private or the authenticated
    viewer belongs to the active organization. *)
Theorem PostList_queryset_membership (now : Z) (objs : list BlogPost.t)
    (request : Request.t) (p : BlogPost.t) :
  Spec.has_profile request = true ->
  exists qs, PostList.get_queryset now objs request = Ok qs /\
    (In p qs <->
     In p objs /\ BlogPost.visible p = true /\ BlogPost.publish_on p <= now /\
     match Request.organization request with
     | None =>
         BlogPost.is_organization_private p = false \/
         (User.is_authenticated (Request.user request) = true /\
          exists o, In o (BlogPost.organizations p) /\
                    Spec.member_of request o = true)
     | Some org =>
         (exists o, In o (BlogPost.organizations p) /\
                    Organization.id o = Organization.id org) /\
         (BlogPost.is_organization_private p = false \/
          (User.is_authenticated (Request.user request) = true /\
           Spec.member_of request org = true))
     end).
Proof.
  intros Hwf.
  destruct (in_get_queryset now objs request p Hwf) as (qs & Hqs & Hiff).
  exists qs. split; [exact Hqs|]. rewrite Hiff. clear Hiff Hqs.
  destruct (Request.organization request) as [org|].
  - unfold Spec.post_visible_in, Spec.attached, same_organization.
    rewrite !andb_true_iff, orb_true_iff, andb_true_iff, negb_true_iff,
      existsb_exists, Z.leb_le.
    setoid_rewrite Z.eqb_eq. tauto.
  - unfold Spec.post_visible, Spec.org_privacy.
    rewrite !andb_true_iff, orb_true_iff, andb_true_iff, negb_true_iff,
      existsb_exists, Z.leb_le.
    tauto.
Qed.

Lemma PostList_queryset_membership_witness :
  exists qs,
    PostList.get_queryset 10 [Cases.public_post; Cases.private_post]
      (Cases.request_member [1] None) = Ok qs /\
    (In Cases.private_post qs <->
     In Cases.private_post [Cases.public_post; Cases.private_post] /\
     BlogPost.visible Cases.private_post = true /\
     BlogPost.publish_on Cases.private_post <= 10 /\
     (BlogPost.is_organization_private Cases.private_post = false \/
      (User.is_authenticated (Request.user (Cases.request_member [1] None)) = true /\
       exists o, In o (BlogPost.organizations Cases.private_post) /\
                 Spec.member_of (Cases.request_member [1] None) o = true))).
Proof.
  apply (PostList_queryset_membership 10 [Cases.public_post; Cases.private_post]
           (Cases.request_member [1] None) Cases.private_post).
  reflexivity.
Defined.

(** The scenario of the specification: an organization-private post
    attached to org A is hidden from an anonymous viewer and from a viewer
    outside A, and listed once the viewer is a member of A. *)
Example private_post_scenario :
  PostList.get_queryset 10 [Cases.private_post] (Cases.request_anonymous None) = Ok [] /\
  PostList.get_queryset 10 [Cases.private_post] (Cases.request_member [] None) = Ok [] /\
  PostList.get_queryset 10 [Cases.private_post] (Cases.request_member [1] None)
    = Ok [Cases.private_post].
Proof. repeat split. Qed.

(** C7: in the PostList queryset every post at an earlier position is
    sticky whenever a later one is, and of two posts with the same sticky
    flag the earlier one is not published before the later one. *)
Theorem PostList_queryset_order (now : Z) (objs : list BlogPost.t)
    (request : Request.t) :
  Spec.has_profile request = true ->
  exists qs, PostList.get_queryset now objs request = Ok qs /\
    forall (i j : nat) (a b : BlogPost.t),
      (i < j)%nat -> nth_error qs i = Some a -> nth_error qs j = Some b ->
      (BlogPost.sticky b = true -> BlogPost.sticky a = true) /\
      (BlogPost.sticky a = BlogPost.sticky b ->
       BlogPost.publish_on b <= BlogPost.publish_on a).
Proof.
  intros Hwf. destruct (get_queryset_ok now objs request Hwf) as [q Hq].
  eexists. split; [exact Hq|]. intros i j a b Hij Ha Hb.
  assert (PostList.sticky_publish_desc a b = true) as Hab.
  { eapply (sorted_lookup (fun x y => PostList.sticky_publish_desc x y = true)
              _ i j a b); [|exact Hij|exact Ha|exact Hb].
    apply filter_sorted; [apply sticky_publish_desc_total|].
    apply order_by_sorted;
      [apply sticky_publish_desc_trans | apply sticky_publish_desc_total]. }
  revert Hab. unfold PostList.sticky_publish_desc.
  destruct (BlogPost.sticky a), (BlogPost.sticky b); rewrite ?Z.leb_le;
    intros H; split; intros; try discriminate; auto.
Qed.

Lemma PostList_queryset_order_witness :
  exists qs,
    PostList.get_queryset 10
      [Cases.public_post; Cases.private_post; Cases.sticky_post]
      (Cases.request_member [1] None) = Ok qs /\
    forall (i j : nat) (a b : BlogPost.t),
      (i < j)%nat -> nth_error qs i = Some a -> nth_error qs j = Some b ->
      (BlogPost.sticky b = true -> BlogPost.sticky a = true) /\
      (BlogPost.sticky a = BlogPost.sticky b ->
       BlogPost.publish_on b <= BlogPost.publish_on a).
Proof.
  apply (PostList_queryset_order 10
           [Cases.public_post; Cases.private_post; Cases.sticky_post]
           (Cases.request_member [1] None)).
  reflexivity.
Defined.

Example PostList_order_example :
  PostList.get_queryset 10
    [Cases.public_post; Cases.private_post; Cases.sticky_post]
    (Cases.request_member [1] None)
  = Ok [Cases.sticky_post; Cases.sticky_post; Cases.private_post; Cases.public_post].
Proof. reflexivity. Qed.

(** ** TicketFeed.get_queryset *)

Section TicketFeedFacts.
Variable Ticket_objects : list Ticket.t.
Variable filter_visible_tickets :
  list Ticket.t -> User.t -> option Profile.t -> list Ticket.t.

Lemma id_desc_trans (a b c : Ticket.t) :
  TicketFeed.id_desc a b = true -> TicketFeed.id_desc b c = true ->
  TicketFeed.id_desc a c = true.
Proof. unfold TicketFeed.id_desc. rewrite !Z.leb_le. lia. Qed.

Lemma id_desc_total (a b : Ticket.t) :
  TicketFeed.id_desc a b = true \/ TicketFeed.id_desc b a = true.
Proof. unfold TicketFeed.id_desc. rewrite !Z.leb_le. lia. Qed.

(** Membership in the query of the "own" branch, whatever the profile. *)
Lemma in_own_query (profile : option Profile.t) (t : Ticket.t) :
  In t (select_related
          (prefetch_related
             (order_by TicketFeed.id_desc
                (filter Ticket.assignees
                   (And (TicketFeed.own_filter profile) (Field Ticket.is_open))
                   Ticket_objects)))) <->
  In t Ticket_objects /\ Ticket.is_open t = true /\
  exists p, profile = Some p /\ Spec.own_ticket p t = true.
Proof.
  unfold select_related, prefetch_related.
  rewrite in_order_by, in_filter_rows.
  unfold TicketFeed.own_filter, Spec.own_ticket, profile_in, pk_in.
  destruct profile as [p|]; simpl; to_prop.
  - split.
    + intros [Hin [[[[He _] _] Ho] | (x & Hx & [[He _]|[He _]] & Ho)]];
        (split; [exact Hin|]; split; [exact Ho|]); exists p;
        (split; [reflexivity|]); eauto.
    + intros (Hin & Ho & p0 & [= <-] & [He | (x & Hx & He)]);
        (split; [exact Hin|]).
      * left. auto.
      * right. exists x. auto.
  - split.
    + intros [_ [H|(x & _ & H)]]; discriminate.
    + intros (_ & _ & p & H & _). discriminate.
Qed.

Lemma in_open_tickets (t : Ticket.t) :
  In t (TicketFeed.tickets Ticket_objects) <->
  In t Ticket_objects /\ Ticket.is_open t = true.
Proof.
  unfold TicketFeed.tickets, select_related, prefetch_related.
  rewrite in_filter_field, in_order_by. reflexivity.
Qed.
End TicketFeedFacts.

(** C3 as the specification words it: a closed ticket owned by the
    authenticated viewer satisfies "owner or assignee" and is not in the
    "own" feed. *)
Lemma TicketFeed_own_stated_rule_fails_on_closed_ticket :
  Request.profile (Cases.request_member [] None) = Some (Cases.profile_7 []) /\
  In (Cases.ticket 1 7 [] false) [Cases.ticket 1 7 [] false] /\
  Spec.own_ticket (Cases.profile_7 []) (Cases.ticket 1 7 [] false) = true /\
  ~ In (Cases.ticket 1 7 [] false)
       (TicketFeed.get_queryset [Cases.ticket 1 7 [] false] (fun qs _ _ => qs)
          (Cases.request_member [] None) true).
Proof.
  repeat split; [left; reflexivity | intros []].
Qed.

(** C3 (amended): for an unauthenticated viewer the "own" feed is the empty
    sequence; for an authenticated viewer it holds exactly the open tickets
    whose owner is the viewer's profile or whose assignees include it. *)
Theorem TicketFeed_own_feed (objs : list Ticket.t)
    (fvt : list Ticket.t -> User.t -> option Profile.t -> list Ticket.t)
    (request : Request.t) :
  (User.is_authenticated (Request.user request) = false ->
   TicketFeed.get_queryset objs fvt request true = []) /\
  (forall (profile : Profile.t) (t : Ticket.t),
     User.is_authenticated (Request.user request) = true ->
     Request.profile request = Some profile ->
     (In t (TicketFeed.get_queryset objs fvt request true) <->
      In t objs /\ Ticket.is_open t = true /\ Spec.own_ticket profile t = true)).
Proof.
  unfold TicketFeed.get_queryset. split.
  - intros ->. reflexivity.
  - intros profile t -> Hp. rewrite in_own_query, Hp. split.
    + intros (Hin & Hopen & p & [= <-] & Hown). auto.
    + intros (Hin & Hopen & Hown). eauto.
Qed.

Lemma TicketFeed_own_feed_witness :
  TicketFeed.get_queryset [Cases.ticket 1 7 [] false; Cases.ticket 2 5 [6; 7] true]
    (fun qs _ _ => qs) (Cases.request_anonymous None) true = [] /\
  (In (Cases.ticket 2 5 [6; 7] true)
      (TicketFeed.get_queryset
         [Cases.ticket 1 7 [] false; Cases.ticket 2 5 [6; 7] true]
         (fun qs _ _ => qs) (Cases.request_member [] None) true) <->
   In (Cases.ticket 2 5 [6; 7] true)
      [Cases.ticket 1 7 [] false; Cases.ticket 2 5 [6; 7] true] /\
   Ticket.is_open (Cases.ticket 2 5 [6; 7] true) = true /\
   Spec.own_ticket (Cases.profile_7 []) (Cases.ticket 2 5 [6; 7] true) = true).
Proof.
  split.
  - apply (TicketFeed_own_feed
             [Cases.ticket 1 7 [] false; Cases.ticket 2 5 [6; 7] true]
             (fun qs _ _ => qs) (Cases.request_anonymous None)).
    reflexivity.
  - apply (TicketFeed_own_feed
             [Cases.ticket 1 7 [] false; Cases.ticket 2 5 [6; 7] true]
             (fun qs _ _ => qs) (Cases.request_member [] None));
      reflexivity.
Defined.

(** C4: for a non-staff viewer the "all" feed is the empty sequence; for a
    staff viewer it is the result of [filter_visible_tickets] on the open
    tickets, newest id first, with the request's user and profile. *)
Theorem TicketFeed_all_feed (objs : list Ticket.t)
    (fvt : list Ticket.t -> User.t -> option Profile.t -> list Ticket.t)
    (request : Request.t) :
  (User.is_staff (Request.user request) = false ->
   TicketFeed.get_queryset objs fvt request false = []) /\
  (User.is_staff (Request.user request) = true ->
   exists tickets,
     TicketFeed.get_queryset objs fvt request false
       = fvt tickets (Request.user request) (Request.profile request) /\
     (forall t, In t tickets <-> In t objs /\ Ticket.is_open t = true) /\
     StronglySorted (fun a b => Ticket.id b <= Ticket.id a) tickets).
Proof.
  unfold TicketFeed.get_queryset. split.
  - intros ->. reflexivity.
  - intros ->. exists (TicketFeed.tickets objs). split; [reflexivity|]. split.
    + apply in_open_tickets.
    + unfold TicketFeed.tickets, select_related, prefetch_related.
      apply (sorted_weaken (fun a b => TicketFeed.id_desc a b = true)).
      * intros a b. unfold TicketFeed.id_desc. apply Z.leb_le.
      * apply filter_sorted; [apply id_desc_total|].
        apply order_by_sorted; [apply id_desc_trans | apply id_desc_total].
Qed.

Lemma TicketFeed_all_feed_witness :
  TicketFeed.get_queryset [Cases.ticket 1 7 [] false; Cases.ticket 2 5 [6] true]
    (fun qs _ _ => qs) (Cases.request_member [] None) false = [] /\
  exists tickets,
    TicketFeed.get_queryset [Cases.ticket 1 7 [] false; Cases.ticket 2 5 [6] true]
      (fun qs _ _ => qs) Cases.request_staff false
      = tickets /\
    (forall t, In t tickets <->
               In t [Cases.ticket 1 7 [] false; Cases.ticket 2 5 [6] true] /\
               Ticket.is_open t = true) /\
    StronglySorted (fun a b => Ticket.id b <= Ticket.id a) tickets.
Proof.
  split.
  - apply (TicketFeed_all_feed
             [Cases.ticket 1 7 [] false; Cases.ticket 2 5 [6] true]
             (fun qs _ _ => qs) (Cases.request_member [] None)).
    reflexivity.
  - apply (TicketFeed_all_feed
             [Cases.ticket 1 7 [] false; Cases.ticket 2 5 [6] true]
             (fun qs _ _ => qs) Cases.request_staff).
    reflexivity.
Defined.

(** C10: every ticket in the "own" feed and, as long as
    [filter_visible_tickets] returns rows of the queryset it is given, every
    ticket in the "all" feed is open. *)
Theorem TicketFeed_only_open (objs : list Ticket.t)
    (fvt : list Ticket.t -> User.t -> option Profile.t -> list Ticket.t)
    (request : Request.t) (is_own : bool) (t : Ticket.t) :
  (forall qs u p x, In x (fvt qs u p) -> In x qs) ->
  In t (TicketFeed.get_queryset objs fvt request is_own) ->
  Ticket.is_open t = true.
Proof.
  intros Hsub. unfold TicketFeed.get_queryset.
  destruct is_own.
  - destruct (User.is_authenticated (Request.user request)); [|intros []].
    rewrite in_own_query. tauto.
  - destruct (User.is_staff (Request.user request)); [|intros []].
    intros Hin. apply Hsub in Hin. apply in_open_tickets in Hin. tauto.
Qed.

Lemma TicketFeed_only_open_witness :
  In (Cases.ticket 2 5 [6] true)
     (TicketFeed.get_queryset [Cases.ticket 1 7 [] false; Cases.ticket 2 5 [6] true]
        (fun qs _ _ => qs) Cases.request_staff false) /\
  Ticket.is_open (Cases.ticket 2 5 [6] true) = true.
Proof.
  assert (In (Cases.ticket 2 5 [6] true)
            (TicketFeed.get_queryset
               [Cases.ticket 1 7 [] false; Cases.ticket 2 5 [6] true]
               (fun qs _ _ => qs) Cases.request_staff false)) as Hin.
  { left. reflexivity. }
  split; [exact Hin|].
  apply (TicketFeed_only_open
           [Cases.ticket 1 7 [] false; Cases.ticket 2 5 [6] true]
           (fun qs _ _ => qs) Cases.request_staff false (Cases.ticket 2 5 [6] true)).
  - intros qs u p x Hx. exact Hx.
  - exact Hin.
Defined.

(** ** PostView *)

(** C2: when the viewer cannot see the fetched post, [get_object] raises
    [Http404], which is not [PermissionDenied]; when the viewer can see it,
    the post is returned as fetched. *)
Theorem PostView_get_object (can_see : BlogPost.t -> User.t -> bool)
    (request : Request.t) (post : BlogPost.t) :
  (can_see post (Request.user request) = false ->
   PostView.get_object can_see (Ok post) request = Raise Http404 /\
   PostView.get_object can_see (Ok post) request <> Raise PermissionDenied) /\
  (can_see post (Request.user request) = true ->
   PostView.get_object can_see (Ok post) request = Ok post).
Proof.
  unfold PostView.get_object. cbn. split; intros ->; cbn.
  - split; [reflexivity | discriminate].
  - reflexivity.
Qed.

Lemma PostView_get_object_witness :
  (PostView.get_object (fun p u => Spec.post_visible 10 (Cases.request_anonymous None) p)
     (Ok Cases.private_post) (Cases.request_anonymous None) = Raise Http404 /\
   PostView.get_object (fun p u => Spec.post_visible 10 (Cases.request_anonymous None) p)
     (Ok Cases.private_post) (Cases.request_anonymous None) <> Raise PermissionDenied) /\
  PostView.get_object (fun p u => Spec.post_visible 10 (Cases.request_anonymous None) p)
    (Ok Cases.public_post) (Cases.request_anonymous None) = Ok Cases.public_post.
Proof.
  split.
  - apply (PostView_get_object
             (fun p u => Spec.post_visible 10 (Cases.request_anonymous None) p)
             (Cases.request_anonymous None) Cases.private_post).
    reflexivity.
  - apply (PostView_get_object
             (fun p u => Spec.post_visible 10 (Cases.request_anonymous None) p)
             (Cases.request_anonymous None) Cases.public_post).
    reflexivity.
Defined.

(** X9: an error of the superclass lookup passes through unchanged, so the
    only error [get_object] adds is [Http404]. *)
Lemma PostView_get_object_errors (can_see : BlogPost.t -> User.t -> bool)
    (request : Request.t) (super_get_object : result BlogPost.t) (e : exn) :
  PostView.get_object can_see super_get_object request = Raise e ->
  e = Http404 \/ super_get_object = Raise e.
Proof.
  unfold PostView.get_object. destruct super_get_object as [post|e']; cbn.
  - destruct (can_see post (Request.user request)); cbn; [discriminate|].
    intros [= <-]. left. reflexivity.
  - intros [= <-]. right. reflexivity.
Qed.

Section PostViewFacts.
Variable request : Request.t.

Let admin_step (context : PostView.context) (org : Organization.t) :=
  if profile_in (Request.profile request) (Organization.admins org)
  then PostView.set_valid_user true context else context.

Lemma admin_loop (orgs : list Organization.t) (context : PostView.context) :
  PostView.valid_user_to_show_edit (fold_left admin_step orgs context)
    = PostView.valid_user_to_show_edit context
      || existsb (fun o => profile_in (Request.profile request) (Organization.admins o)) orgs
  /\ PostView.valid_org_to_show_edit (fold_left admin_step orgs context)
    = PostView.valid_org_to_show_edit context.
Proof.
  revert context. induction orgs as [|o orgs IH]; intros context; simpl.
  - rewrite orb_false_r. auto.
  - destruct (IH (admin_step context o)) as [-> ->]. unfold admin_step.
    destruct (profile_in (Request.profile request) (Organization.admins o)); simpl.
    + rewrite orb_true_r. auto.
    + auto.
Qed.

Let org_step (context : PostView.context) (post_org : Organization.t) :=
  orgs ← profile_organizations request;
  Ok (if pk_in (Organization.id post_org) orgs
      then PostView.append_valid_org post_org context else context).

Lemma org_loop (p : Profile.t) (orgs : list Organization.t) (context : PostView.context) :
  Request.profile request = Some p ->
  foldM org_step orgs context =
  Ok {| PostView.valid_user_to_show_edit := PostView.valid_user_to_show_edit context;
        PostView.valid_org_to_show_edit :=
          PostView.valid_org_to_show_edit context
          ++ List.filter (Spec.member_of request) orgs |}.
Proof.
  intros Hp. revert context. induction orgs as [|o orgs IH]; intros context; simpl.
  - rewrite app_nil_r. destruct context; reflexivity.
  - assert (org_step context o =
            Ok (if Spec.member_of request o
                then PostView.append_valid_org o context else context)) as ->.
    { unfold org_step, profile_organizations, Spec.member_of. rewrite Hp.
      reflexivity. }
    cbn [foldM mbind result_bind]. rewrite IH.
    destruct (Spec.member_of request o); simpl.
    + rewrite <- app_assoc. reflexivity.
    + reflexivity.
Qed.

Lemma can_edit_profile (object : BlogPost.t) :
  Spec.can_edit request object = true -> exists p, Request.profile request = Some p.
Proof.
  unfold Spec.can_edit. destruct (Request.profile request) as [p|]; [eauto|].
  simpl. intros H. exfalso.
  induction (BlogPost.organizations object); simpl in H; [discriminate|auto].
Qed.

Lemma get_context_data_eq (object : BlogPost.t) :
  PostView.get_context_data request object =
  Ok {| PostView.valid_user_to_show_edit := Spec.can_edit request object;
        PostView.valid_org_to_show_edit :=
          if Spec.can_edit request object
          then List.filter (Spec.member_of request) (BlogPost.organizations object)
          else [] |}.
Proof.
  unfold PostView.get_context_data.
  fold admin_step. fold org_step.
  match goal with
  | |- context [fold_left admin_step ?l ?c] =>
      destruct (admin_loop l c) as [Hflag Horgs];
      assert (PostView.valid_user_to_show_edit (fold_left admin_step l c)
              = Spec.can_edit request object) as Hedit;
      [ rewrite Hflag; unfold Spec.can_edit;
        destruct (profile_in (Request.profile request) (BlogPost.authors object));
        reflexivity
      | assert (PostView.valid_org_to_show_edit (fold_left admin_step l c) = [])
          as Hnil;
        [ rewrite Horgs;
          destruct (profile_in (Request.profile request) (BlogPost.authors object));
          reflexivity
        | generalize dependent (fold_left admin_step l c) ] ]
  end.
  intros context _ _ Hedit Hnil. rewrite Hedit.
  destruct (Spec.can_edit request object) eqn:He.
  - destruct (can_edit_profile object He) as [p Hp].
    rewrite (org_loop p _ _ Hp), Hedit, Hnil. reflexivity.
  - destruct context as [flag orgs]. simpl in *. subst. reflexivity.
Qed.
End PostViewFacts.

Lemma pk_in_iff (pk : Z) (pks : list Z) : pk_in pk pks = true <-> In pk pks.
Proof.
  unfold pk_in. rewrite existsb_exists. split.
  - intros (x & Hx & He). apply Z.eqb_eq in He. subst. exact Hx.
  - intros H. exists pk. split; [exact H | apply Z.eqb_refl].
Qed.

Lemma can_edit_iff (request : Request.t) (object : BlogPost.t) :
  Spec.can_edit request object = true <->
  exists p, Request.profile request = Some p /\
    (In (Profile.id p) (BlogPost.authors object) \/
     exists o, In o (BlogPost.organizations object) /\
               In (Profile.id p) (Organization.admins o)).
Proof.
  split.
  - intros H. destruct (can_edit_profile request object H) as [p Hp].
    exists p. split; [exact Hp|]. revert H. unfold Spec.can_edit, profile_in.
    rewrite Hp, orb_true_iff, existsb_exists, pk_in_iff.
    intros [H|(o & Ho & H)]; [left; exact H|right].
    exists o. rewrite <- pk_in_iff. auto.
  - intros (p & Hp & H). unfold Spec.can_edit, profile_in.
    rewrite Hp, orb_true_iff, existsb_exists, pk_in_iff.
    destruct H as [H|(o & Ho & H)]; [left; exact H|right].
    exists o. rewrite pk_in_iff. auto.
Qed.

Lemma member_of_iff (request : Request.t) (o : Organization.t) :
  Spec.member_of request o = true <->
  exists p, Request.profile request = Some p /\
            In (Organization.id o) (Profile.organizations p).
Proof.
  unfold Spec.member_of. destruct (Request.profile request) as [p|].
  - rewrite pk_in_iff. split; [eauto|]. intros (p' & [= <-] & H). exact H.
  - split; [discriminate|]. intros (p & H & _). discriminate.
Qed.

(** C5: [get_context_data] sets [valid_user_to_show_edit] iff the viewer's
    profile is an author of the post or an admin of an organization attached
    to it; when the flag is set, [valid_org_to_show_edit] holds exactly the
    post's organizations the viewer belongs to; when it is not set the list
    is empty; so the list is always within the post's organizations and
    within the viewer's organizations. *)
Theorem PostView_edit_flags (request : Request.t) (object : BlogPost.t) :
  exists context,
    PostView.get_context_data request object = Ok context /\
    (PostView.valid_user_to_show_edit context = true <->
     exists p, Request.profile request = Some p /\
       (In (Profile.id p) (BlogPost.authors object) \/
        exists o, In o (BlogPost.organizations object) /\
                  In (Profile.id p) (Organization.admins o))) /\
    (PostView.valid_user_to_show_edit context = true ->
     forall o, In o (PostView.valid_org_to_show_edit context) <->
               In o (BlogPost.organizations object) /\
               exists p, Request.profile request = Some p /\
                         In (Organization.id o) (Profile.organizations p)) /\
    (PostView.valid_user_to_show_edit context = false ->
     PostView.valid_org_to_show_edit context = []) /\
    (forall o, In o (PostView.valid_org_to_show_edit context) ->
               In o (BlogPost.organizations object) /\
               exists p, Request.profile request = Some p /\
                         In (Organization.id o) (Profile.organizations p)).
Proof.
  eexists. split; [apply get_context_data_eq|]. simpl.
  split; [apply can_edit_iff|]. split; [|split].
  - intros ->. intros o. rewrite filter_In, member_of_iff. reflexivity.
  - intros ->. reflexivity.
  - intros o. destruct (Spec.can_edit request object); [|intros []].
    rewrite filter_In, member_of_iff. auto.
Qed.

Lemma PostView_edit_flags_witness :
  PostView.get_context_data (Cases.request_member [2; 5] None) Cases.sticky_post
  = Ok {| PostView.valid_user_to_show_edit := true;
          PostView.valid_org_to_show_edit := [Cases.org_b] |} /\
  exists context,
    PostView.get_context_data (Cases.request_member [2; 5] None) Cases.sticky_post
      = Ok context /\
    forall o, In o (PostView.valid_org_to_show_edit context) ->
              In o (BlogPost.organizations Cases.sticky_post).
Proof.
  split; [reflexivity|].
  destruct (PostView_edit_flags (Cases.request_member [2; 5] None) Cases.sticky_post)
    as (context & Hc & _ & _ & _ & Hsub).
  exists context. split; [exact Hc|]. intros o Ho. apply Hsub. exact Ho.
Defined.

(** An anonymous viewer gets no edit affordance, and no error, even on a
    post with organizations. *)
Example PostView_anonymous :
  PostView.get_context_data (Cases.request_anonymous None) Cases.sticky_post
  = Ok {| PostView.valid_user_to_show_edit := false;
          PostView.valid_org_to_show_edit := [] |}.
Proof. reflexivity. Qed.

(** ** FeedView.get_context_data: contests *)

Section FeedViewFacts.
Variable now : Z.
Variable get_visible_contests : User.t -> list Contest.t.
Variable request : Request.t.

Lemma start_time_asc_trans (a b c : Contest.t) :
  FeedView.start_time_asc a b = true -> FeedView.start_time_asc b c = true ->
  FeedView.start_time_asc a c = true.
Proof. unfold FeedView.start_time_asc. rewrite !Z.leb_le. lia. Qed.

Lemma start_time_asc_total (a b : Contest.t) :
  FeedView.start_time_asc a b = true \/ FeedView.start_time_asc b a = true.
Proof. unfold FeedView.start_time_asc. rewrite !Z.leb_le. lia. Qed.

Lemma in_visible_contests (c : Contest.t) :
  In c (FeedView.visible_contests get_visible_contests request) <->
  In c (get_visible_contests (Request.user request)) /\
  Contest.is_visible c = true /\
  match Request.organization request with
  | Some org =>
      Contest.is_organization_private c = true /\
      exists o, In o (Contest.organizations c) /\
                Organization.id o = Organization.id org
  | None => True
  end.
Proof.
  unfold FeedView.visible_contests, same_organization.
  destruct (Request.organization request) as [org|].
  - rewrite in_filter_rows, in_order_by, in_filter_field. simpl. to_prop.
    split.
    + intros [[Hin Hv] [[_ H]|(x & Hx & Hp & Hs)]]; [discriminate|]. eauto 8.
    + intros (Hin & Hv & Hp & x & Hx & Hs). eauto 8.
  - rewrite in_order_by, in_filter_field. tauto.
Qed.

Lemma visible_contests_sorted :
  StronglySorted (fun a b => FeedView.start_time_asc a b = true)
    (FeedView.visible_contests get_visible_contests request).
Proof.
  unfold FeedView.visible_contests.
  destruct (Request.organization request) as [org|].
  - apply filter_sorted; [apply start_time_asc_total|].
    apply order_by_sorted; [apply start_time_asc_trans | apply start_time_asc_total].
  - apply order_by_sorted; [apply start_time_asc_trans | apply start_time_asc_total].
Qed.
End FeedViewFacts.

(** C8 as the specification words it, under an organization context: a
    visible public contest attached to the active organization is in the
    stated scope and in its time window, and is in neither list. *)
Lemma FeedView_public_contest_left_out_of_org_scope :
  (In (Cases.contest 1 0 50 false [Cases.org_a])
      [Cases.contest 1 0 50 false [Cases.org_a];
       Cases.contest 2 20 30 false [Cases.org_a]] /\
   Contest.is_visible (Cases.contest 1 0 50 false [Cases.org_a]) = true /\
   Spec.in_scope (Cases.request_anonymous (Some Cases.org_a))
     (Cases.contest 1 0 50 false [Cases.org_a]) = true /\
   Contest.start_time (Cases.contest 1 0 50 false [Cases.org_a]) <= 10
     < Contest.end_time (Cases.contest 1 0 50 false [Cases.org_a]) /\
   ~ In (Cases.contest 1 0 50 false [Cases.org_a])
        (FeedView.current_contests 10
           (fun _ => [Cases.contest 1 0 50 false [Cases.org_a];
                      Cases.contest 2 20 30 false [Cases.org_a]])
           (Cases.request_anonymous (Some Cases.org_a)))) /\
  (In (Cases.contest 2 20 30 false [Cases.org_a])
      [Cases.contest 1 0 50 false [Cases.org_a];
       Cases.contest 2 20 30 false [Cases.org_a]] /\
   Contest.is_visible (Cases.contest 2 20 30 false [Cases.org_a]) = true /\
   Spec.in_scope (Cases.request_anonymous (Some Cases.org_a))
     (Cases.contest 2 20 30 false [Cases.org_a]) = true /\
   Contest.start_time (Cases.contest 2 20 30 false [Cases.org_a]) > 10 /\
   ~ In (Cases.contest 2 20 30 false [Cases.org_a])
        (FeedView.future_contests 10
           (fun _ => [Cases.contest 1 0 50 false [Cases.org_a];
                      Cases.contest 2 20 30 false [Cases.org_a]])
           (Cases.request_anonymous (Some Cases.org_a)))).
Proof.
  split.
  - split; [left; reflexivity|]. split; [reflexivity|]. split; [reflexivity|].
    split; [cbn; lia|]. intros [].
  - split; [right; left; reflexivity|]. split; [reflexivity|].
    split; [reflexivity|]. split; [cbn; lia|]. intros [].
Qed.

(** C8 (amended): "current_contests" holds exactly the contests visible to
    the user with [is_visible] set and start_time <= now < end_time,
    "future_contests" exactly those with start_time > now, and both are in
    ascending start-time order; when an organization context is present both
    are restricted to the contests that are organization-private and have
    the active organization attached. *)
Theorem FeedView_contests (now : Z) (get_visible_contests : User.t -> list Contest.t)
    (request : Request.t) :
  (forall c,
     In c (FeedView.current_contests now get_visible_contests request) <->
     (In c (get_visible_contests (Request.user request)) /\
      Contest.is_visible c = true /\
      match Request.organization request with
      | Some org =>
          Contest.is_organization_private c = true /\
          exists o, In o (Contest.organizations c) /\
                    Organization.id o = Organization.id org
      | None => True
      end) /\
     Contest.start_time c <= now < Contest.end_time c) /\
  (forall c,
     In c (FeedView.future_contests now get_visible_contests request) <->
     (In c (get_visible_contests (Request.user request)) /\
      Contest.is_visible c = true /\
      match Request.organization request with
      | Some org =>
          Contest.is_organization_private c = true /\
          exists o, In o (Contest.organizations c) /\
                    Organization.id o = Organization.id org
      | None => True
      end) /\
     Contest.start_time c > now) /\
  StronglySorted (fun a b => Contest.start_time a <= Contest.start_time b)
    (FeedView.current_contests now get_visible_contests request) /\
  StronglySorted (fun a b => Contest.start_time a <= Contest.start_time b)
    (FeedView.future_contests now get_visible_contests request).
Proof.
  unfold FeedView.current_contests, FeedView.future_contests.
  split; [|split; [|split]].
  - intros c. rewrite in_filter_field2, in_visible_contests, Z.leb_le, Z.ltb_lt.
    tauto.
  - intros c. rewrite in_filter_field, in_visible_contests, Z.ltb_lt.
    split; intros [H1 H2]; (split; [exact H1 | lia]).
  - apply (sorted_weaken (fun a b => FeedView.start_time_asc a b = true)).
    + intros a b. unfold FeedView.start_time_asc. apply Z.leb_le.
    + apply filter_sorted; [apply start_time_asc_total|].
      apply visible_contests_sorted.
  - apply (sorted_weaken (fun a b => FeedView.start_time_asc a b = true)).
    + intros a b. unfold FeedView.start_time_asc. apply Z.leb_le.
    + apply filter_sorted; [apply start_time_asc_total|].
      apply visible_contests_sorted.
Qed.

Example FeedView_contests_example :
  let contests := fun _ : User.t =>
    [Cases.contest 1 20 30 false []; Cases.contest 2 5 15 true [Cases.org_a];
     Cases.contest 3 0 50 false []; Cases.contest 4 12 14 true [Cases.org_a];
     Cases.contest 5 1 2 false []] in
  FeedView.current_contests 10 contests (Cases.request_anonymous None)
    = [Cases.contest 3 0 50 false []; Cases.contest 2 5 15 true [Cases.org_a]] /\
  FeedView.future_contests 10 contests (Cases.request_anonymous None)
    = [Cases.contest 4 12 14 true [Cases.org_a]; Cases.contest 1 20 30 false []] /\
  FeedView.current_contests 10 contests (Cases.request_anonymous (Some Cases.org_a))
    = [Cases.contest 2 5 15 true [Cases.org_a]] /\
  FeedView.future_contests 10 contests (Cases.request_anonymous (Some Cases.org_a))
    = [Cases.contest 4 12 14 true [Cases.org_a]].
Proof. repeat split. Qed.

(** ** PostList.get_context_data: comment counts *)

Lemma slice_from_comment_page (id : Z) :
  PostList.slice_from 2 (PostList.comment_page id)
  = NilZero.string_of_int (Z.to_int id).
Proof. reflexivity. Qed.

(** ["b:%d"] followed by [int(page[2:])] gives the id back. *)
Lemma int_comment_page (id : Z) :
  PostList.int (PostList.slice_from 2 (PostList.comment_page id)) = Ok id.
Proof.
  rewrite slice_from_comment_page. unfold PostList.int.
  pose proof (DecimalZ.of_to id) as Hid.
  destruct (Z.to_int id) as [u|u] eqn:Hd.
  - destruct u; try (rewrite NilZero.isi by discriminate; rewrite Hid; reflexivity).
    rewrite NilZero.isi_posnil. rewrite <- Hid. reflexivity.
  - destruct u; try (rewrite NilZero.isi by discriminate; rewrite Hid; reflexivity).
    rewrite NilZero.isi_negnil. rewrite <- Hid. reflexivity.
Qed.

Lemma comment_page_inj (a b : Z) :
  PostList.comment_page a = PostList.comment_page b -> a = b.
Proof.
  intros H. pose proof (int_comment_page a) as Ha. rewrite H, int_comment_page in Ha.
  congruence.
Qed.

Section CommentCounts.
Variable Comment_objects : list Comment.t.

Let step (d : gmap Z nat) (row : string * nat) : result (gmap Z nat) :=
  let '(page, count) := row in
  k ← PostList.int (PostList.slice_from 2 page);
  Ok (<[k := count]> d).

(** The dict comprehension over rows with distinct, well-formed pages. *)
Lemma counts_loop (rows : list (string * nat)) (d : gmap Z nat) :
  List.NoDup (map fst rows) ->
  (forall page n, In (page, n) rows -> exists k, page = PostList.comment_page k) ->
  exists d', foldM step rows d = Ok d' /\
    forall k,
      (forall n, In (PostList.comment_page k, n) rows -> d' !! k = Some n) /\
      ((forall n, ~ In (PostList.comment_page k, n) rows) -> d' !! k = d !! k).
Proof.
  revert d. induction rows as [|[page n] rows IH]; intros d Hnd Hwf.
  - exists d. split; [reflexivity|]. intros k. split; [intros n []|reflexivity].
  - apply List.NoDup_cons_iff in Hnd as [Hfresh Hnd].
    destruct (Hwf page n (or_introl eq_refl)) as [k0 ->].
    destruct (IH (<[k0 := n]> d) Hnd) as (d' & Hd' & Hlook).
    { intros page' n' Hin. apply (Hwf page' n'). right. exact Hin. }
    exists d'. split.
    { assert (step d (PostList.comment_page k0, n) = Ok (<[k0 := n]> d)) as Hstep.
      { unfold step. rewrite int_comment_page. reflexivity. }
      cbn [foldM]. rewrite Hstep. exact Hd'. }
    intros k. destruct (Hlook k) as [Hhit Hmiss]. split.
    + intros m [Heq|Hin]; [|apply Hhit; exact Hin].
      pose proof (f_equal fst Heq) as Hk. pose proof (f_equal snd Heq) as Hn.
      cbn [fst snd] in Hk, Hn. apply comment_page_inj in Hk. subst k0 m.
      rewrite Hmiss; [apply lookup_insert_eq|].
      intros n' Hin. apply Hfresh. apply in_map_iff.
      exists (PostList.comment_page k, n'). auto.
    + intros Hnone. rewrite Hmiss.
      * apply lookup_insert_ne. intros ->. apply (Hnone n). left. reflexivity.
      * intros n' Hin. apply (Hnone n'). right. exact Hin.
Qed.

Lemma in_values_list_page_count (qs : list Comment.t) (page : string) (n : nat) :
  In (page, n) (PostList.values_list_page_count qs) <->
  In page (map Comment.page qs) /\
  n = length (List.filter (fun c => String.eqb (Comment.page c) page) qs).
Proof.
  unfold PostList.values_list_page_count. rewrite in_map_iff. split.
  - intros (page' & [= <- <-] & Hin). apply nodup_In in Hin. auto.
  - intros [Hin ->]. exists page. split; [reflexivity|].
    apply nodup_In. exact Hin.
Qed.

Lemma values_list_page_count_nodup (qs : list Comment.t) :
  List.NoDup (map fst (PostList.values_list_page_count qs)).
Proof.
  unfold PostList.values_list_page_count. rewrite map_map. simpl.
  rewrite map_id. apply NoDup_nodup.
Qed.

(** Rows of a listed page that survive the filter, counted per page. *)
Lemma count_filtered (pages : list string) (key : string) (qs : list Comment.t) :
  In key pages ->
  length (List.filter (fun c => String.eqb (Comment.page c) key)
            (List.filter (fun c => PostList.page_in pages c && negb (Comment.hidden c)) qs))
  = Spec.comment_count qs key.
Proof.
  intros Hkey. unfold Spec.comment_count.
  induction qs as [|c qs IH]; [reflexivity|]. simpl.
  destruct (String.eqb (Comment.page c) key) eqn:He.
  - apply String.eqb_eq in He.
    assert (PostList.page_in pages c = true) as ->.
    { unfold PostList.page_in. apply existsb_exists. exists key.
      split; [exact Hkey | apply String.eqb_eq; exact He]. }
    simpl. destruct (Comment.hidden c); simpl.
    + exact IH.
    + apply String.eqb_eq in He. rewrite He. simpl. rewrite IH. reflexivity.
  - rewrite andb_false_r.
    destruct (PostList.page_in pages c && negb (Comment.hidden c)); simpl;
      rewrite ?He; exact IH.
Qed.

Lemma filter_length_pos {A : Type} (f : A -> bool) (l : list A) :
  (0 < length (List.filter f l))%nat <-> exists x, In x l /\ f x = true.
Proof.
  split.
  - destruct (List.filter f l) as [|x l'] eqn:Hf; simpl; [lia|]. intros _.
    exists x. apply filter_In. rewrite Hf. left. reflexivity.
  - intros (x & Hx & Hfx).
    assert (In x (List.filter f l)) as Hin by (apply filter_In; auto).
    destruct (List.filter f l); [destruct Hin | simpl; lia].
Qed.

Lemma post_comment_counts_lookup (posts : list BlogPost.t) :
  exists counts,
    PostList.post_comment_counts Comment_objects posts = Ok counts /\
    forall post, In post posts ->
      counts !! BlogPost.id post =
        match Spec.comment_count Comment_objects
                (PostList.comment_page (BlogPost.id post)) with
        | O => None
        | S n => Some (S n)
        end.
Proof.
  unfold PostList.post_comment_counts. fold step.
  rewrite filter_no_join by reflexivity. cbn [holds].
  set (pages := map (fun post => PostList.comment_page (BlogPost.id post)) posts).
  set (qs := List.filter
               (fun c => PostList.page_in pages c && negb (Comment.hidden c))
               Comment_objects).
  destruct (counts_loop (PostList.values_list_page_count qs) ∅) as (d & Hd & Hlook).
  { apply values_list_page_count_nodup. }
  { intros page n Hin. apply in_values_list_page_count in Hin as [Hin _].
    apply in_map_iff in Hin as (c & <- & Hc). apply filter_In in Hc as [_ Hc].
    apply andb_true_iff in Hc as [Hc _]. unfold PostList.page_in in Hc.
    apply existsb_exists in Hc as (key & Hkey & He). apply String.eqb_eq in He.
    rewrite He. apply in_map_iff in Hkey as (post & <- & _). eauto. }
  exists d. split; [exact Hd|]. intros post Hpost.
  destruct (Hlook (BlogPost.id post)) as [Hhit Hmiss].
  set (key := PostList.comment_page (BlogPost.id post)) in *.
  assert (In key pages) as Hkey.
  { apply in_map_iff. exists post. auto. }
  pose proof (count_filtered pages key Comment_objects Hkey) as Hcount.
  fold qs in Hcount.
  destruct (Spec.comment_count Comment_objects key) as [|n] eqn:Hn.
  - rewrite Hmiss; [apply lookup_empty|].
    intros n Hin. apply in_values_list_page_count in Hin as [Hin _].
    assert (0 < length (List.filter (fun c => String.eqb (Comment.page c) key) qs))%nat
      as Hpos; [|lia].
    apply filter_length_pos. apply in_map_iff in Hin as (c & Hc & Hin).
    exists c. split; [exact Hin | apply String.eqb_eq; exact Hc].
  - apply Hhit. apply in_values_list_page_count. split; [|symmetry; exact Hcount].
    assert (0 < length (List.filter (fun c => String.eqb (Comment.page c) key) qs))%nat
      as Hpos by lia.
    apply filter_length_pos in Hpos as (c & Hc & He).
    apply in_map_iff. exists c. split; [apply String.eqb_eq; exact He | exact Hc].
Qed.
End CommentCounts.

(** A listed post whose only comment is hidden has no entry in the dict. *)
Lemma PostList_no_count_without_comments :
  exists counts,
    PostList.post_comment_counts [Cases.comment "b:1" true] [Cases.public_post]
      = Ok counts /\
    In Cases.public_post [Cases.public_post] /\
    Spec.comment_count [Cases.comment "b:1" true]
      (PostList.comment_page (BlogPost.id Cases.public_post)) = 0%nat /\
    counts !! BlogPost.id Cases.public_post <> Some 0%nat.
Proof.
  exists ∅. repeat split; [left; reflexivity|].
  rewrite lookup_empty. discriminate.
Qed.

(** The comprehension runs one query and yields the dict of
    [PostList.post_comment_counts]. *)
Lemma post_comment_counts_queries (comments : list Comment.t)
    (posts : list BlogPost.t) (queries : nat) :
  PostListQueries.post_comment_counts comments posts queries
  = (PostList.post_comment_counts comments posts, S queries).
Proof. reflexivity. Qed.

(** C6: for every listed post the comment count read from
    post_comment_counts under the post's id (0 when the post has no entry)
    equals the number of non-hidden comments whose page is "b:<id>", and an
    entry is present exactly when that number is positive; the counts of
    the whole page are computed by one query on the comment table, however
    many posts are listed. *)
Theorem PostList_comment_counts (comments : list Comment.t) (posts : list BlogPost.t)
    (queries : nat) :
  exists counts,
    PostListQueries.post_comment_counts comments posts queries
      = (Ok counts, S queries) /\
    PostList.post_comment_counts comments posts = Ok counts /\
    forall post, In post posts ->
      default 0%nat (counts !! BlogPost.id post)
      = Spec.comment_count comments (PostList.comment_page (BlogPost.id post)) /\
      counts !! BlogPost.id post =
        (if Nat.eqb (Spec.comment_count comments
                       (PostList.comment_page (BlogPost.id post))) 0
         then None
         else Some (Spec.comment_count comments
                      (PostList.comment_page (BlogPost.id post)))).
Proof.
  destruct (post_comment_counts_lookup comments posts) as (counts & Hc & Hlook).
  exists counts. split; [|split; [exact Hc|]].
  - rewrite post_comment_counts_queries, Hc. reflexivity.
  - intros post Hpost. rewrite (Hlook post Hpost).
    destruct (Spec.comment_count comments (PostList.comment_page (BlogPost.id post)));
      split; reflexivity.
Qed.

Lemma PostList_comment_counts_witness :
  exists counts,
    PostListQueries.post_comment_counts
      [Cases.comment "b:3" false; Cases.comment "b:3" true; Cases.comment "p:3" false;
       Cases.comment "b:3" false; Cases.comment "b:9" false]
      [Cases.sticky_post; Cases.public_post] 0%nat = (Ok counts, 1%nat) /\
    default 0%nat (counts !! 3) = 2%nat /\ default 0%nat (counts !! 1) = 0%nat /\
    counts !! 3 = Some 2%nat /\ counts !! 1 = None /\ counts !! 9 = None.
Proof.
  destruct (PostList_comment_counts
              [Cases.comment "b:3" false; Cases.comment "b:3" true;
               Cases.comment "p:3" false; Cases.comment "b:3" false;
               Cases.comment "b:9" false]
              [Cases.sticky_post; Cases.public_post] 0%nat)
    as (counts & Hq & Hc & Hlook).
  exists counts. split; [exact Hq|].
  split; [apply (Hlook Cases.sticky_post); left; reflexivity|].
  split; [apply (Hlook Cases.public_post); right; left; reflexivity|].
  split; [apply (Hlook Cases.sticky_post); left; reflexivity|].
  split; [apply (Hlook Cases.public_post); right; left; reflexivity|].
  vm_compute in Hc. injection Hc as <-. reflexivity.
Defined.

(** ** Idempotence and soundness of the visibility filters *)

Lemma member_of_same (request : Request.t) (o org : Organization.t) :
  same_organization o org = true ->
  Spec.member_of request o = Spec.member_of request org.
Proof.
  unfold same_organization, Spec.member_of. intros H. apply Z.eqb_eq in H.
  rewrite H. reflexivity.
Qed.

(** The rule applied under an organization context implies the plain one. *)
Lemma post_visible_in_sound (now : Z) (request : Request.t) (org : Organization.t)
    (p : BlogPost.t) :
  Spec.post_visible_in now request org p = true ->
  Spec.post_visible now request p = true.
Proof.
  unfold Spec.post_visible_in, Spec.post_visible, Spec.org_privacy, Spec.attached.
  rewrite !andb_true_iff, !orb_true_iff, !andb_true_iff, !existsb_exists.
  intros [[Hvp (o & Ho & Hsame)] Hpriv]. split; [exact Hvp|].
  destruct Hpriv as [Hpub|[Hauth Hmem]]; [left; exact Hpub|right].
  split; [exact Hauth|]. exists o. split; [exact Ho|].
  rewrite (member_of_same request o org Hsame). exact Hmem.
Qed.

Lemma get_queryset_sound (now : Z) (objs : list BlogPost.t) (request : Request.t)
    (qs : list BlogPost.t) (p : BlogPost.t) :
  Spec.has_profile request = true ->
  PostList.get_queryset now objs request = Ok qs ->
  In p qs -> In p objs /\ Spec.post_visible now request p = true.
Proof.
  intros Hwf Hqs Hin.
  destruct (in_get_queryset now objs request p Hwf) as (qs' & Hqs' & Hiff).
  rewrite Hqs in Hqs'. injection Hqs' as <-. apply Hiff in Hin as [Hobj Hvis].
  split; [exact Hobj|].
  destruct (Request.organization request) as [org|]; [|exact Hvis].
  eapply post_visible_in_sound. exact Hvis.
Qed.

(** Running the post query on its own result selects the same posts. *)
Lemma get_queryset_idempotent (now : Z) (objs : list BlogPost.t) (request : Request.t)
    (qs : list BlogPost.t) :
  Spec.has_profile request = true ->
  PostList.get_queryset now objs request = Ok qs ->
  exists qs', PostList.get_queryset now qs request = Ok qs' /\
              forall p, In p qs' <-> In p qs.
Proof.
  intros Hwf Hqs.
  destruct (get_queryset_ok now qs request Hwf) as [q Hq].
  eexists. split; [exact Hq|]. intros p.
  destruct (in_get_queryset now objs request p Hwf) as (qs1 & Hqs1 & Hiff1).
  destruct (in_get_queryset now qs request p Hwf) as (qs2 & Hqs2 & Hiff2).
  rewrite Hqs in Hqs1. injection Hqs1 as <-.
  rewrite Hq in Hqs2. injection Hqs2 as <-.
  rewrite Hiff2. rewrite Hiff1. tauto.
Qed.

(** C9: running the post query, or either ticket query, on its own result
    selects the same rows; and every row on any page of a feed is one the
    viewer has rights to: a post satisfies the visibility rule, a ticket of
    the "own" feed is owned by or assigned to the authenticated viewer, and
    a ticket of the "all" feed is shown to the staff viewer by
    [filter_visible_tickets], taken as a row-wise filter. *)
Theorem visibility_filters_idempotent_and_sound
    (now : Z) (posts : list BlogPost.t) (tickets : list Ticket.t)
    (fvt : list Ticket.t -> User.t -> option Profile.t -> list Ticket.t)
    (shown : User.t -> option Profile.t -> Ticket.t -> bool)
    (request : Request.t) :
  Spec.has_profile request = true ->
  (forall qs u p t, In t (fvt qs u p) <-> In t qs /\ shown u p t = true) ->
  (exists qs,
     PostList.get_queryset now posts request = Ok qs /\
     (exists qs', PostList.get_queryset now qs request = Ok qs' /\
                  forall p, In p qs' <-> In p qs) /\
     (forall bottom top p,
        In p (slice bottom top qs) -> Spec.post_visible now request p = true)) /\
  (forall is_own t,
     (In t (TicketFeed.get_queryset
              (TicketFeed.get_queryset tickets fvt request is_own) fvt request is_own)
      <-> In t (TicketFeed.get_queryset tickets fvt request is_own)) /\
     (forall bottom top,
        In t (slice bottom top (TicketFeed.get_queryset tickets fvt request is_own)) ->
        if is_own
        then User.is_authenticated (Request.user request) = true /\
             exists p, Request.profile request = Some p /\ Spec.own_ticket p t = true
        else User.is_staff (Request.user request) = true /\
             shown (Request.user request) (Request.profile request) t = true)).
Proof.
  intros Hwf Hfvt. split.
  - destruct (get_queryset_ok now posts request Hwf) as [q Hq].
    eexists. split; [exact Hq|]. split.
    + apply (get_queryset_idempotent now posts request _ Hwf Hq).
    + intros bottom top p Hin. apply in_slice in Hin.
      apply (get_queryset_sound now posts request _ p Hwf Hq Hin).
  - intros is_own t. unfold TicketFeed.get_queryset. destruct is_own.
    + destruct (User.is_authenticated (Request.user request)).
      * split.
        -- rewrite !in_own_query. tauto.
        -- intros bottom top Hin. apply in_slice in Hin.
           apply in_own_query in Hin. split; [reflexivity|tauto].
      * split; [reflexivity|]. intros bottom top Hin. apply in_slice in Hin.
        destruct Hin.
    + destruct (User.is_staff (Request.user request)).
      * split.
        -- rewrite !Hfvt, !in_open_tickets, !Hfvt, !in_open_tickets. tauto.
        -- intros bottom top Hin. apply in_slice in Hin.
           apply Hfvt in Hin. split; [reflexivity|tauto].
      * split; [reflexivity|]. intros bottom top Hin. apply in_slice in Hin.
        destruct Hin.
Qed.

Lemma visibility_filters_idempotent_and_sound_witness :
  let fvt := fun (qs : list Ticket.t) (_ : User.t) (_ : option Profile.t) =>
               List.filter Ticket.is_open qs in
  let posts := [Cases.public_post; Cases.private_post] in
  let tickets := [Cases.ticket 1 7 [] false; Cases.ticket 2 5 [6] true] in
  let request := Cases.request_staff in
  (exists qs,
     PostList.get_queryset 10 posts request = Ok qs /\
     (exists qs', PostList.get_queryset 10 qs request = Ok qs' /\
                  forall p, In p qs' <-> In p qs) /\
     (forall bottom top p,
        In p (slice bottom top qs) -> Spec.post_visible 10 request p = true)) /\
  (forall is_own t,
     (In t (TicketFeed.get_queryset
              (TicketFeed.get_queryset tickets fvt request is_own) fvt request is_own)
      <-> In t (TicketFeed.get_queryset tickets fvt request is_own)) /\
     (forall bottom top,
        In t (slice bottom top (TicketFeed.get_queryset tickets fvt request is_own)) ->
        if is_own
        then User.is_authenticated (Request.user request) = true /\
             exists p, Request.profile request = Some p /\ Spec.own_ticket p t = true
        else User.is_staff (Request.user request) = true /\
             Ticket.is_open t = true)).
Proof.
  intros fvt posts tickets request.
  apply (visibility_filters_idempotent_and_sound 10 posts tickets fvt
           (fun _ _ => Ticket.is_open) request).
  - reflexivity.
  - intros qs u p t. unfold fvt. apply filter_In.
Defined.

(** * Further properties of the views *)

(** ** PostList.get_queryset: errors and monotonicity *)

(** X1: the post query raises exactly when the request is authenticated and
    carries no profile, and then with [AttributeError]; an anonymous request
    never touches the profile. *)
Theorem PostList_get_queryset_raises (now : Z) (objs : list BlogPost.t)
    (request : Request.t) (e : exn) :
  PostList.get_queryset now objs request = Raise e <->
  User.is_authenticated (Request.user request) = true /\
  Request.profile request = None /\ e = AttributeError.
Proof.
  destruct request as [[auth staff] [pr|] org];
    unfold PostList.get_queryset, profile_organizations; simpl;
    destruct auth; cbn; split.
  all: try discriminate.
  all: try (intros (H1 & H2 & H3); discriminate).
  - intros [= <-]. auto.
  - intros (_ & _ & ->). reflexivity.
Qed.

(** Two requests whose visibility conditions are ordered list ordered sets
    of posts. *)
Lemma get_queryset_subset (now now' : Z) (objs : list BlogPost.t)
    (r r' : Request.t) :
  Spec.has_profile r = true -> Spec.has_profile r' = true ->
  (forall p,
     match Request.organization r with
     | None => Spec.post_visible now r p = true
     | Some org => Spec.post_visible_in now r org p = true
     end ->
     match Request.organization r' with
     | None => Spec.post_visible now' r' p = true
     | Some org => Spec.post_visible_in now' r' org p = true
     end) ->
  exists qs qs',
    PostList.get_queryset now objs r = Ok qs /\
    PostList.get_queryset now' objs r' = Ok qs' /\
    forall p, In p qs -> In p qs'.
Proof.
  intros Hr Hr' Himp.
  destruct (get_queryset_ok now objs r Hr) as [q Hq].
  destruct (get_queryset_ok now' objs r' Hr') as [q' Hq'].
  eexists. eexists. split; [exact Hq|]. split; [exact Hq'|]. intros p Hin.
  destruct (in_get_queryset now objs r p Hr) as (qs1 & Hqs1 & Hiff1).
  destruct (in_get_queryset now' objs r' p Hr') as (qs2 & Hqs2 & Hiff2).
  rewrite Hq in Hqs1. injection Hqs1 as <-.
  rewrite Hq' in Hqs2. injection Hqs2 as <-.
  apply Hiff2. apply Hiff1 in Hin as [Hobj Hvis]. split; [exact Hobj|].
  apply Himp. exact Hvis.
Qed.

(** X2: an organization context only narrows the list: every post listed
    under an organization context is also listed for the same viewer
    without one. *)
Theorem PostList_org_context_narrows (now : Z) (objs : list BlogPost.t)
    (user : User.t) (profile : option Profile.t) (org : Organization.t) :
  Spec.has_profile
    {| Request.user := user; Request.profile := profile;
       Request.organization := Some org |} = true ->
  exists qs qs',
    PostList.get_queryset now objs
      {| Request.user := user; Request.profile := profile;
         Request.organization := Some org |} = Ok qs /\
    PostList.get_queryset now objs
      {| Request.user := user; Request.profile := profile;
         Request.organization := None |} = Ok qs' /\
    forall p, In p qs -> In p qs'.
Proof.
  intros Hwf. apply get_queryset_subset; [exact Hwf | exact Hwf |].
  intros p. cbn [Request.organization]. intros H.
  apply post_visible_in_sound in H. exact H.
Qed.

Lemma PostList_org_context_narrows_witness :
  exists qs qs',
    PostList.get_queryset 10 [Cases.public_post; Cases.sticky_post]
      (Cases.request_member [1] (Some Cases.org_a)) = Ok qs /\
    PostList.get_queryset 10 [Cases.public_post; Cases.sticky_post]
      (Cases.request_member [1] None) = Ok qs' /\
    forall p, In p qs -> In p qs'.
Proof.
  apply (PostList_org_context_narrows 10 [Cases.public_post; Cases.sticky_post]
           Cases.member (Some (Cases.profile_7 [1])) Cases.org_a).
  reflexivity.
Defined.

Lemma member_of_incl (user : User.t) (a b : Profile.t)
    (org org' : option Organization.t) (o : Organization.t) :
  incl (Profile.organizations a) (Profile.organizations b) ->
  Spec.member_of {| Request.user := user; Request.profile := Some a;
                    Request.organization := org |} o = true ->
  Spec.member_of {| Request.user := user; Request.profile := Some b;
                    Request.organization := org' |} o = true.
Proof.
  unfold Spec.member_of. cbn [Request.profile]. rewrite !pk_in_iff. auto.
Qed.

(** X3: belonging to more organizations never hides a post: if every
    organization of one profile is an organization of another, every post
    listed for the first is listed for the second, under the same user
    flags and organization context. *)
Theorem PostList_more_organizations_more_posts (now : Z) (objs : list BlogPost.t)
    (user : User.t) (a b : Profile.t) (org : option Organization.t) :
  incl (Profile.organizations a) (Profile.organizations b) ->
  exists qs qs',
    PostList.get_queryset now objs
      {| Request.user := user; Request.profile := Some a;
         Request.organization := org |} = Ok qs /\
    PostList.get_queryset now objs
      {| Request.user := user; Request.profile := Some b;
         Request.organization := org |} = Ok qs' /\
    forall p, In p qs -> In p qs'.
Proof.
  intros Hincl. apply get_queryset_subset.
  - unfold Spec.has_profile. cbn. destruct (User.is_authenticated user); reflexivity.
  - unfold Spec.has_profile. cbn. destruct (User.is_authenticated user); reflexivity.
  - intros p. cbn [Request.organization]. destruct org as [o|].
    + unfold Spec.post_visible_in. cbn [Request.user].
      rewrite !andb_true_iff, !orb_true_iff, !andb_true_iff.
      intros [Hrest [Hpub|[Hauth Hmem]]]; (split; [exact Hrest|]); [left; exact Hpub|].
      right. split; [exact Hauth|]. eapply member_of_incl; eassumption.
    + unfold Spec.post_visible, Spec.org_privacy. cbn [Request.user].
      rewrite !andb_true_iff, !orb_true_iff, !andb_true_iff, !existsb_exists.
      intros [Hrest [Hpub|[Hauth (o & Ho & Hmem)]]]; (split; [exact Hrest|]);
        [left; exact Hpub|].
      right. split; [exact Hauth|]. exists o. split; [exact Ho|].
      eapply member_of_incl; eassumption.
Qed.

Lemma PostList_more_organizations_more_posts_witness :
  exists qs qs',
    PostList.get_queryset 10 [Cases.public_post; Cases.private_post]
      (Cases.request_member [] None) = Ok qs /\
    PostList.get_queryset 10 [Cases.public_post; Cases.private_post]
      (Cases.request_member [1; 2] None) = Ok qs' /\
    forall p, In p qs -> In p qs'.
Proof.
  apply (PostList_more_organizations_more_posts 10
           [Cases.public_post; Cases.private_post]
           Cases.member (Cases.profile_7 []) (Cases.profile_7 [1; 2]) None).
  intros x [].
Defined.

(** X4: a listed post stays listed as time passes: every post listed at
    [now] is listed for the same request at any later time. *)
Theorem PostList_listed_posts_stay_listed (now now' : Z) (objs : list BlogPost.t)
    (request : Request.t) :
  Spec.has_profile request = true -> now <= now' ->
  exists qs qs',
    PostList.get_queryset now objs request = Ok qs /\
    PostList.get_queryset now' objs request = Ok qs' /\
    forall p, In p qs -> In p qs'.
Proof.
  intros Hwf Hle. apply get_queryset_subset; [exact Hwf | exact Hwf |].
  intros p. destruct (Request.organization request) as [o|].
  - unfold Spec.post_visible_in. rewrite !andb_true_iff, !Z.leb_le.
    intros [[[Hv Hp] Ha] Ho]. repeat split; try assumption. lia.
  - unfold Spec.post_visible. rewrite !andb_true_iff, !Z.leb_le.
    intros [[Hv Hp] Ho]. repeat split; try assumption. lia.
Qed.

Lemma PostList_listed_posts_stay_listed_witness :
  exists qs qs',
    PostList.get_queryset 2 [Cases.public_post; Cases.private_post]
      (Cases.request_member [1] None) = Ok qs /\
    PostList.get_queryset 10 [Cases.public_post; Cases.private_post]
      (Cases.request_member [1] None) = Ok qs' /\
    forall p, In p qs -> In p qs'.
Proof.
  apply (PostList_listed_posts_stay_listed 2 10
           [Cases.public_post; Cases.private_post] (Cases.request_member [1] None)).
  - reflexivity.
  - lia.
Defined.

(** X5: logging in never hides a post: every post listed for an
    unauthenticated request is listed for an authenticated request with any
    profile, under the same organization context. *)
Theorem PostList_login_never_hides (now : Z) (objs : list BlogPost.t)
    (staff staff' : bool) (anonymous_profile : option Profile.t)
    (profile : Profile.t) (org : option Organization.t) :
  exists qs qs',
    PostList.get_queryset now objs
      {| Request.user := {| User.is_authenticated := false; User.is_staff := staff |};
         Request.profile := anonymous_profile; Request.organization := org |} = Ok qs /\
    PostList.get_queryset now objs
      {| Request.user := {| User.is_authenticated := true; User.is_staff := staff' |};
         Request.profile := Some profile; Request.organization := org |} = Ok qs' /\
    forall p, In p qs -> In p qs'.
Proof.
  apply get_queryset_subset; [reflexivity | reflexivity |].
  intros p. cbn [Request.organization]. destruct org as [o|].
  - unfold Spec.post_visible_in. cbn [Request.user User.is_authenticated].
    rewrite !andb_true_iff, !orb_true_iff, !andb_true_iff.
    intros [Hrest [Hpub|[Hauth _]]]; [|discriminate]. auto.
  - unfold Spec.post_visible, Spec.org_privacy. cbn [Request.user User.is_authenticated].
    rewrite !andb_true_iff, !orb_true_iff, !andb_true_iff.
    intros [Hrest [Hpub|[Hauth _]]]; [|discriminate]. auto.
Qed.

(** ** PostList.get_queryset: how often a post is listed *)

Section Multiplicity.
Context {M R : Type}.
Variable related : M -> list R.

Lemma map_const_repeat {A : Type} (m : M) (l : list A) :
  map (fun _ => m) l = repeat m (length l).
Proof. induction l as [|x l IH]; simpl; [reflexivity|]. rewrite IH. reflexivity. Qed.

Lemma filter_order_by_perm (q : Q M R) (leb : M -> M -> bool) (qs : list M) :
  Permutation (filter related q (order_by leb qs)) (filter related q qs).
Proof.
  unfold filter, order_by. apply Permutation_flat_map.
  apply merge_sort_Permutation.
Qed.

Lemma filter_map_length {A B : Type} (f : B -> bool) (g : A -> B) (l : list A) :
  length (List.filter f (map g l)) = length (List.filter (fun x => f (g x)) l).
Proof.
  induction l as [|x l IH]; simpl; [reflexivity|].
  destruct (f (g x)); simpl; rewrite IH; reflexivity.
Qed.

Lemma filter_all_length {A : Type} (f : A -> bool) (l : list A) :
  (forall x, In x l -> f x = true) -> length (List.filter f l) = length l.
Proof.
  induction l as [|x l IH]; simpl; intros H; [reflexivity|].
  rewrite (H x (or_introl eq_refl)). simpl. rewrite IH; [reflexivity|].
  intros y Hy. apply H. right. exact Hy.
Qed.
End Multiplicity.

Lemma flat_map_ext_eq {A B : Type} (f g : A -> list B) (l : list A) :
  (forall x, f x = g x) -> flat_map f l = flat_map g l.
Proof.
  intros H. induction l as [|x l IH]; simpl; [reflexivity|].
  rewrite H, IH. reflexivity.
Qed.

Lemma filter_ext_eq {A : Type} (f g : A -> bool) (l : list A) :
  (forall x, f x = g x) -> List.filter f l = List.filter g l.
Proof.
  intros H. induction l as [|x l IH]; simpl; [reflexivity|].
  rewrite H, IH. reflexivity.
Qed.

Lemma filter_filter_and {A : Type} (f g : A -> bool) (l : list A) :
  List.filter g (List.filter f l) = List.filter (fun x => f x && g x) l.
Proof.
  induction l as [|x l IH]; simpl; [reflexivity|].
  destruct (f x); simpl; [destruct (g x)|]; rewrite IH; reflexivity.
Qed.

Lemma filter_perm {A : Type} (f : A -> bool) (l l' : list A) :
  Permutation l l' -> Permutation (List.filter f l) (List.filter f l').
Proof.
  intros H. induction H as [|x l l' H IH|x y l|l l' l'' H1 IH1 H2 IH2]; simpl.
  - constructor.
  - destruct (f x); [constructor|]; exact IH.
  - destruct (f x), (f y); try reflexivity. constructor.
  - etransitivity; eassumption.
Qed.

(** X6: for an unauthenticated request outside an organization context the
    queryset is a rearrangement of the stored posts that satisfy the
    visibility rule: each is listed exactly as often as it is stored. *)
Theorem PostList_anonymous_lists_each_post_once (now : Z) (objs : list BlogPost.t)
    (staff : bool) (profile : option Profile.t) :
  exists qs,
    PostList.get_queryset now objs
      {| Request.user := {| User.is_authenticated := false; User.is_staff := staff |};
         Request.profile := profile; Request.organization := None |} = Ok qs /\
    Permutation qs
      (List.filter
         (Spec.post_visible now
            {| Request.user := {| User.is_authenticated := false; User.is_staff := staff |};
               Request.profile := profile; Request.organization := None |})
         objs).
Proof.
  eexists. split; [reflexivity|].
  unfold prefetch_related.
  rewrite (filter_no_join BlogPost.organizations
             (Field (fun p => negb (BlogPost.is_organization_private p))))
    by reflexivity.
  cbn [holds].
  etransitivity.
  - apply filter_perm. unfold order_by. apply merge_sort_Permutation.
  - rewrite filter_no_join by reflexivity. cbn [holds].
    rewrite filter_filter_and.
    erewrite filter_ext_eq; [reflexivity|].
    intros p. unfold Spec.post_visible, Spec.org_privacy.
    cbn [Request.user User.is_authenticated]. rewrite andb_false_l, orb_false_r.
    reflexivity.
Qed.

Lemma copies_rows (pr : Profile.t) (user : User.t) (p : BlogPost.t) :
  length
    (List.filter
       (holds
          (Or (Field (fun p => negb (BlogPost.is_organization_private p)))
              (Related (fun o => pk_in (Organization.id o) (Profile.organizations pr))))
          p)
       (joined BlogPost.organizations
          (Or (Field (fun p => negb (BlogPost.is_organization_private p)))
              (Related (fun o => pk_in (Organization.id o) (Profile.organizations pr))))
          p))
  = copies {| Request.user := user; Request.profile := Some pr;
              Request.organization := None |} p.
Proof.
  unfold joined, copies. cbn [spans orb].
  destruct (BlogPost.organizations p) as [|o orgs].
  - cbn. destruct (BlogPost.is_organization_private p); reflexivity.
  - rewrite filter_map_length. cbn [holds].
    destruct (BlogPost.is_organization_private p); cbn [negb orb].
    + reflexivity.
    + apply filter_all_length. intros x _. reflexivity.
Qed.

(** X7: for an authenticated viewer outside an organization context the
    queryset lists each stored visible, published post once per joined
    organization row that passes: a public post once per attached
    organization (once if it has none), a private post once per attached
    organization the viewer belongs to. *)
Theorem PostList_member_lists_post_per_organization (now : Z)
    (objs : list BlogPost.t) (staff : bool) (pr : Profile.t) :
  exists qs,
    PostList.get_queryset now objs
      {| Request.user := {| User.is_authenticated := true; User.is_staff := staff |};
         Request.profile := Some pr; Request.organization := None |} = Ok qs /\
    Permutation qs
      (flat_map
         (fun p =>
            repeat p
              (copies
                 {| Request.user :=
                      {| User.is_authenticated := true; User.is_staff := staff |};
                    Request.profile := Some pr; Request.organization := None |} p))
         (List.filter
            (fun p => BlogPost.visible p && (BlogPost.publish_on p <=? now)) objs)).
Proof.
  eexists. split; [reflexivity|].
  unfold prefetch_related. etransitivity; [apply filter_order_by_perm|].
  rewrite (filter_no_join BlogPost.organizations
             (And (Field BlogPost.visible)
                  (Field (fun p => BlogPost.publish_on p <=? now))))
    by reflexivity.
  cbn [holds]. unfold filter.
  erewrite flat_map_ext_eq; [reflexivity|].
  intros p. rewrite map_const_repeat. f_equal. apply copies_rows.
Qed.

Example PostList_member_duplicates :
  PostList.get_queryset 10 [Cases.sticky_post] (Cases.request_member [] None)
  = Ok [Cases.sticky_post; Cases.sticky_post] /\
  PostList.get_queryset 10 [Cases.sticky_post] (Cases.request_anonymous None)
  = Ok [Cases.sticky_post].
Proof. split; reflexivity. Qed.

(** ** TicketFeed.get_queryset: order of the "own" feed *)

(** X8: the "own" feed is in descending id order: of two tickets at
    positions i < j, the later one has no larger id. *)
Theorem TicketFeed_own_feed_order (objs : list Ticket.t)
    (fvt : list Ticket.t -> User.t -> option Profile.t -> list Ticket.t)
    (request : Request.t) (i j : nat) (a b : Ticket.t) :
  (i < j)%nat ->
  nth_error (TicketFeed.get_queryset objs fvt request true) i = Some a ->
  nth_error (TicketFeed.get_queryset objs fvt request true) j = Some b ->
  Ticket.id b <= Ticket.id a.
Proof.
  unfold TicketFeed.get_queryset, select_related, prefetch_related.
  destruct (User.is_authenticated (Request.user request)).
  - intros Hij Ha Hb. apply Z.leb_le.
    change (TicketFeed.id_desc a b = true).
    eapply (sorted_lookup (fun x y => TicketFeed.id_desc x y = true) _ i j a b);
      [|exact Hij|exact Ha|exact Hb].
    apply order_by_sorted; [apply id_desc_trans | apply id_desc_total].
  - intros _ Ha. destruct i; discriminate.
Qed.

Lemma TicketFeed_own_feed_order_witness :
  Ticket.id (Cases.ticket 2 5 [7] true) <= Ticket.id (Cases.ticket 4 7 [] true).
Proof.
  apply (TicketFeed_own_feed_order
           [Cases.ticket 2 5 [7] true; Cases.ticket 3 7 [] false;
            Cases.ticket 4 7 [] true]
           (fun qs _ _ => qs) (Cases.request_member [] None) 0%nat 1%nat
           (Cases.ticket 4 7 [] true) (Cases.ticket 2 5 [7] true)).
  - lia.
  - reflexivity.
  - reflexivity.
Defined.

(** ** PostView: errors and the profile-less viewer *)

Lemma PostView_get_object_errors_witness :
  Http404 = Http404 \/
  (Ok Cases.private_post : result BlogPost.t) = Raise Http404.
Proof.
  apply (PostView_get_object_errors
           (fun p u => Spec.post_visible 10 (Cases.request_anonymous None) p)
           (Cases.request_anonymous None) (Ok Cases.private_post) Http404).
  reflexivity.
Defined.

(** X10: a request without a profile gets no edit affordance on any post:
    the flag is false, the organization list is empty, and nothing is
    raised although the profile is read. *)
Theorem PostView_no_profile_no_edit (request : Request.t) (object : BlogPost.t) :
  Request.profile request = None ->
  PostView.get_context_data request object
  = Ok {| PostView.valid_user_to_show_edit := false;
          PostView.valid_org_to_show_edit := [] |}.
Proof.
  intros Hp. rewrite get_context_data_eq.
  destruct (Spec.can_edit request object) eqn:He; [|reflexivity].
  destruct (can_edit_profile request object He) as [p Hp'].
  rewrite Hp in Hp'. discriminate.
Qed.

Lemma PostView_no_profile_no_edit_witness :
  PostView.get_context_data (Cases.request_anonymous (Some Cases.org_a))
    Cases.sticky_post
  = Ok {| PostView.valid_user_to_show_edit := false;
          PostView.valid_org_to_show_edit := [] |}.
Proof.
  apply (PostView_no_profile_no_edit (Cases.request_anonymous (Some Cases.org_a))
           Cases.sticky_post).
  reflexivity.
Defined.

(** ** Comment pages *)

(** X11: the page key of a post is decoded back to its id by
    [int(page[2:])], for every integer id; posts with different ids have
    different page keys; the list view, the detail view and the count query
    name the same page for a post. *)
Theorem comment_page_round_trip :
  (forall post,
     PostList.int (PostList.slice_from 2 (PostList_get_comment_page post))
     = Ok (BlogPost.id post)) /\
  (forall p q,
     PostList_get_comment_page p = PostList_get_comment_page q ->
     BlogPost.id p = BlogPost.id q) /\
  (forall post,
     PostList_get_comment_page post = PostView_get_comment_page post /\
     PostList_get_comment_page post = PostList.comment_page (BlogPost.id post)).
Proof.
  split; [|split].
  - intros post. apply (int_comment_page (BlogPost.id post)).
  - intros p q H. apply comment_page_inj. exact H.
  - intros post. split; reflexivity.
Qed.

(** ** PostList.get_context_data: more on comment counts *)

Lemma row_dec (rows : list (string * nat)) (key : string) :
  (exists n, In (key, n) rows) \/ (forall n, ~ In (key, n) rows).
Proof.
  induction rows as [|[page m] rows IH].
  - right. intros n [].
  - destruct (string_dec page key) as [->|Hne]; [left; exists m; left; reflexivity|].
    destruct IH as [[n Hn]|Hnone]; [left; exists n; right; exact Hn|].
    right. intros n [Heq|Hin]; [|exact (Hnone n Hin)].
    apply Hne. congruence.
Qed.

(** X12: the dict holds counts for listed posts only: every key is the id
    of a listed post, and its value is the positive number of non-hidden
    comments on that post's page. *)
Theorem PostList_comment_counts_keys (comments : list Comment.t)
    (posts : list BlogPost.t) :
  exists counts,
    PostList.post_comment_counts comments posts = Ok counts /\
    forall k n, counts !! k = Some n ->
      (0 < n)%nat /\
      n = Spec.comment_count comments (PostList.comment_page k) /\
      exists post, In post posts /\ BlogPost.id post = k.
Proof.
  unfold PostList.post_comment_counts.
  rewrite filter_no_join by reflexivity. cbn [holds].
  set (pages := map (fun post => PostList.comment_page (BlogPost.id post)) posts).
  set (qs := List.filter
               (fun c => PostList.page_in pages c && negb (Comment.hidden c))
               comments).
  assert (forall page n, In (page, n) (PostList.values_list_page_count qs) ->
                         In page pages) as Hpages.
  { intros page n Hin. apply in_values_list_page_count in Hin as [Hin _].
    apply in_map_iff in Hin as (c & <- & Hc). apply filter_In in Hc as [_ Hc].
    apply andb_true_iff in Hc as [Hc _]. unfold PostList.page_in in Hc.
    apply existsb_exists in Hc as (key & Hkey & He). apply String.eqb_eq in He.
    rewrite He. exact Hkey. }
  destruct (counts_loop (PostList.values_list_page_count qs) ∅) as (d & Hd & Hlook).
  { apply values_list_page_count_nodup. }
  { intros page n Hin. apply Hpages in Hin.
    apply in_map_iff in Hin as (post & <- & _). eauto. }
  exists d. split; [exact Hd|]. intros k n Hk.
  destruct (Hlook k) as [Hhit Hmiss].
  destruct (row_dec (PostList.values_list_page_count qs) (PostList.comment_page k))
    as [[m Hm]|Hnone].
  - rewrite (Hhit m Hm) in Hk. injection Hk as ->.
    pose proof (Hpages _ _ Hm) as Hkey.
    apply in_values_list_page_count in Hm as [Hin Hn].
    pose proof (count_filtered pages (PostList.comment_page k) comments Hkey)
      as Hcount.
    fold qs in Hcount.
    split; [|split; [rewrite <- Hcount; exact Hn|]].
    + rewrite Hn.
      apply filter_length_pos. apply in_map_iff in Hin as (c & Hc & Hcin).
      exists c. split; [exact Hcin | apply String.eqb_eq; exact Hc].
    + apply in_map_iff in Hkey as (post & Hpost & Hpin).
      exists post. split; [exact Hpin|]. apply comment_page_inj. exact Hpost.
  - rewrite (Hmiss Hnone), lookup_empty in Hk. discriminate.
Qed.

(** X13: a hidden comment, or a comment on a page of no listed post, does
    not change the counts, wherever it sits in the comment table. *)
Theorem PostList_comment_counts_ignore (l1 l2 : list Comment.t) (c : Comment.t)
    (posts : list BlogPost.t) :
  Comment.hidden c = true \/
  (forall post, In post posts ->
                Comment.page c <> PostList.comment_page (BlogPost.id post)) ->
  PostList.post_comment_counts (l1 ++ c :: l2) posts
  = PostList.post_comment_counts (l1 ++ l2) posts.
Proof.
  intros Hc. unfold PostList.post_comment_counts.
  rewrite !filter_no_join by reflexivity. cbn [holds].
  rewrite !List.filter_app. cbn [List.filter].
  match goal with
  | |- context [if ?b then _ else _] => assert (b = false) as ->; [|reflexivity]
  end.
  destruct Hc as [Hh|Hpage].
  - rewrite Hh. apply andb_false_r.
  - apply andb_false_iff. left. unfold PostList.page_in.
    destruct (existsb _ _) eqn:He; [|reflexivity]. exfalso.
    apply existsb_exists in He as (key & Hkey & Heq). apply String.eqb_eq in Heq.
    apply in_map_iff in Hkey as (post & <- & Hin). exact (Hpage post Hin Heq).
Qed.

Lemma PostList_comment_counts_ignore_witness :
  PostList.post_comment_counts
    ([Cases.comment "b:1" false] ++ Cases.comment "b:1" true :: [Cases.comment "b:3" false])
    [Cases.public_post; Cases.sticky_post]
  = PostList.post_comment_counts
      ([Cases.comment "b:1" false] ++ [Cases.comment "b:3" false])
      [Cases.public_post; Cases.sticky_post].
Proof.
  apply (PostList_comment_counts_ignore [Cases.comment "b:1" false]
           [Cases.comment "b:3" false] (Cases.comment "b:1" true)
           [Cases.public_post; Cases.sticky_post]).
  left. reflexivity.
Defined.

(** ** FeedView.get_context_data: current, future and finished contests *)

(** X14: no contest is both current and future; every contest of the
    visible, scoped set is current, future, or finished (started and ended
    by now); a finished contest is in neither list. *)
Theorem FeedView_contests_partition (now : Z)
    (get_visible_contests : User.t -> list Contest.t) (request : Request.t)
    (c : Contest.t) :
  (In c (FeedView.current_contests now get_visible_contests request) ->
   ~ In c (FeedView.future_contests now get_visible_contests request)) /\
  (In c (FeedView.visible_contests get_visible_contests request) ->
   In c (FeedView.current_contests now get_visible_contests request) \/
   In c (FeedView.future_contests now get_visible_contests request) \/
   (Contest.start_time c <= now /\ Contest.end_time c <= now)) /\
  (Contest.end_time c <= now ->
   ~ In c (FeedView.current_contests now get_visible_contests request)).
Proof.
  unfold FeedView.current_contests, FeedView.future_contests.
  rewrite in_filter_field2, in_filter_field, !Z.leb_le, !Z.ltb_lt.
  split; [|split].
  - intros (_ & Hs & _) (_ & Hf). lia.
  - intros Hin.
    destruct (Z_lt_le_dec now (Contest.start_time c)) as [Hlt|Hle]; [auto|].
    destruct (Z_lt_le_dec now (Contest.end_time c)) as [Hlt'|Hle']; [auto|].
    right. right. auto.
  - intros He (_ & _ & Hlt). lia.
Qed.

(** ** FeedView.get_context_data: top lists *)

Section TopListFacts.
Context {Row : Type}.
Variable scope : list Row.
Variable is_unlisted : Row -> bool.
Variable leb : Row -> Row -> bool.

Let listed : list Row :=
  filter no_relation (Field (fun p => negb (is_unlisted p))) scope.

Lemma in_listed (p : Row) : In p listed <-> In p scope /\ is_unlisted p = false.
Proof.
  unfold listed. rewrite in_filter_field, negb_true_iff. reflexivity.
Qed.

Lemma listed_filter :
  listed = List.filter (fun p => negb (is_unlisted p)) scope.
Proof. unfold listed. rewrite filter_no_join by reflexivity. reflexivity. Qed.

Lemma in_firstn {A : Type} (n : nat) (l : list A) (x : A) :
  In x (firstn n l) -> In x l.
Proof.
  intros H. rewrite <- (firstn_skipn n l). apply in_or_app. left. exact H.
Qed.

Lemma top_in (p : Row) :
  In p (firstn 10 (order_by leb listed)) -> In p scope /\ is_unlisted p = false.
Proof.
  intros H. apply in_firstn in H. apply in_order_by in H. apply in_listed. exact H.
Qed.

Lemma sorted_app_lookup {A : Type} (rel : A -> A -> Prop) (l1 l2 : list A) (x y : A) :
  StronglySorted rel (l1 ++ l2) -> In x l1 -> In y l2 -> rel x y.
Proof.
  induction l1 as [|a l1 IH]; simpl; intros Hs Hx Hy; [destruct Hx|].
  inversion Hs as [|a' l' Hs' Ha]; subst. destruct Hx as [->|Hx].
  - rewrite List.Forall_forall in Ha. apply Ha. apply in_or_app. right. exact Hy.
  - apply IH; assumption.
Qed.

Lemma sorted_firstn {A : Type} (rel : A -> A -> Prop) (n : nat) (l : list A) :
  StronglySorted rel l -> StronglySorted rel (firstn n l).
Proof.
  intros Hs. revert n. induction Hs as [|a l Hl IH Ha]; intros n.
  - rewrite firstn_nil. constructor.
  - destruct n as [|n]; simpl; constructor; [apply IH|].
    rewrite List.Forall_forall in *. intros x Hx. apply Ha.
    eapply in_firstn. exact Hx.
Qed.

Section Ordered.
Hypothesis leb_trans : forall a b c, leb a b = true -> leb b c = true -> leb a c = true.
Hypothesis leb_total : forall a b, leb a b = true \/ leb b a = true.

Lemma top_sorted :
  StronglySorted (fun a b => leb a b = true) (firstn 10 (order_by leb listed)).
Proof.
  apply sorted_firstn. apply order_by_sorted; assumption.
Qed.

Lemma top_best (p q : Row) :
  In q (firstn 10 (order_by leb listed)) ->
  In p scope -> is_unlisted p = false ->
  In p (firstn 10 (order_by leb listed)) \/ leb q p = true.
Proof.
  intros Hq Hp Hu.
  assert (In p (order_by leb listed)) as Hin.
  { apply in_order_by. apply in_listed. auto. }
  rewrite <- (firstn_skipn 10 (order_by leb listed)) in Hin.
  apply in_app_or in Hin as [Hin|Hin]; [left; exact Hin|right].
  apply (sorted_app_lookup (fun a b => leb a b = true)
           (firstn 10 (order_by leb listed)) (skipn 10 (order_by leb listed)));
    [|exact Hq|exact Hin].
  rewrite firstn_skipn. apply order_by_sorted; assumption.
Qed.
End Ordered.

Lemma top_length : (length (firstn 10 (order_by leb listed)) <= 10)%nat.
Proof. apply firstn_le_length. Qed.

Lemma top_all_when_few :
  (length (List.filter (fun p => negb (is_unlisted p)) scope) <= 10)%nat ->
  Permutation (firstn 10 (order_by leb listed))
              (List.filter (fun p => negb (is_unlisted p)) scope).
Proof.
  intros Hlen. rewrite <- listed_filter in *.
  assert (Permutation (order_by leb listed) listed) as Hperm.
  { unfold order_by. apply merge_sort_Permutation. }
  rewrite firstn_all2; [exact Hperm|].
  rewrite (Permutation_length Hperm). exact Hlen.
Qed.
End TopListFacts.

(** X15: each top list has at most 10 rows, and every row on it is a row
    of the profile table, or of the active organization's members, that is
    not unlisted. *)
Theorem FeedContext_top_lists_listed {Row : Type} (Profile_objects : list Row)
    (members : Organization.t -> list Row) (is_unlisted : Row -> bool)
    (rating_desc performance_points_desc : Row -> Row -> bool)
    (request : Request.t) :
  (length (FeedContext.top_rated Profile_objects members is_unlisted rating_desc
             request) <= 10)%nat /\
  (length (FeedContext.top_scorer Profile_objects members is_unlisted
             performance_points_desc request) <= 10)%nat /\
  forall p,
    In p (FeedContext.top_rated Profile_objects members is_unlisted rating_desc request)
    \/ In p (FeedContext.top_scorer Profile_objects members is_unlisted
               performance_points_desc request) ->
    is_unlisted p = false /\
    match Request.organization request with
    | Some organization => In p (members organization)
    | None => In p Profile_objects
    end.
Proof.
  unfold FeedContext.top_rated, FeedContext.top_scorer, FeedContext.profile_queryset.
  split; [apply top_length|]. split; [apply top_length|].
  intros p [H|H]; apply top_in in H; destruct H as [Hin Hu]; (split; [exact Hu|]);
    destruct (Request.organization request); exact Hin.
Qed.

(** X16: with orderings that are total and transitive, each top list is in
    its order, and it holds the best rows: a listed row of the scope that
    did not make the list is ordered after every row on it. *)
Theorem FeedContext_top_lists_best {Row : Type} (Profile_objects : list Row)
    (members : Organization.t -> list Row) (is_unlisted : Row -> bool)
    (rating_desc performance_points_desc : Row -> Row -> bool)
    (request : Request.t) :
  (forall a b c, rating_desc a b = true -> rating_desc b c = true ->
                 rating_desc a c = true) ->
  (forall a b, rating_desc a b = true \/ rating_desc b a = true) ->
  (forall a b c, performance_points_desc a b = true ->
                 performance_points_desc b c = true ->
                 performance_points_desc a c = true) ->
  (forall a b, performance_points_desc a b = true \/
               performance_points_desc b a = true) ->
  (StronglySorted (fun a b => rating_desc a b = true)
     (FeedContext.top_rated Profile_objects members is_unlisted rating_desc request) /\
   forall p q,
     In q (FeedContext.top_rated Profile_objects members is_unlisted rating_desc
             request) ->
     In p (FeedContext.profile_queryset Profile_objects members request) ->
     is_unlisted p = false ->
     In p (FeedContext.top_rated Profile_objects members is_unlisted rating_desc
             request) \/
     rating_desc q p = true) /\
  (StronglySorted (fun a b => performance_points_desc a b = true)
     (FeedContext.top_scorer Profile_objects members is_unlisted
        performance_points_desc request) /\
   forall p q,
     In q (FeedContext.top_scorer Profile_objects members is_unlisted
             performance_points_desc request) ->
     In p (FeedContext.profile_queryset Profile_objects members request) ->
     is_unlisted p = false ->
     In p (FeedContext.top_scorer Profile_objects members is_unlisted
             performance_points_desc request) \/
     performance_points_desc q p = true).
Proof.
  intros Hrt Hrto Hpt Hpto. unfold FeedContext.top_rated, FeedContext.top_scorer.
  split; split.
  - apply top_sorted; assumption.
  - intros p q. apply top_best; assumption.
  - apply top_sorted; assumption.
  - intros p q. apply top_best; assumption.
Qed.

Lemma rating_desc_trans (a b c : RankCases.row) :
  RankCases.rating_desc a b = true -> RankCases.rating_desc b c = true ->
  RankCases.rating_desc a c = true.
Proof. unfold RankCases.rating_desc. rewrite !Z.leb_le. lia. Defined.

Lemma rating_desc_total (a b : RankCases.row) :
  RankCases.rating_desc a b = true \/ RankCases.rating_desc b a = true.
Proof. unfold RankCases.rating_desc. rewrite !Z.leb_le. lia. Defined.

Lemma performance_points_desc_trans (a b c : RankCases.row) :
  RankCases.performance_points_desc a b = true ->
  RankCases.performance_points_desc b c = true ->
  RankCases.performance_points_desc a c = true.
Proof. unfold RankCases.performance_points_desc. rewrite !Z.leb_le. lia. Defined.

Lemma performance_points_desc_total (a b : RankCases.row) :
  RankCases.performance_points_desc a b = true \/
  RankCases.performance_points_desc b a = true.
Proof. unfold RankCases.performance_points_desc. rewrite !Z.leb_le. lia. Defined.

Lemma FeedContext_top_lists_best_witness :
  StronglySorted (fun a b => RankCases.rating_desc a b = true)
    (FeedContext.top_rated RankCases.rows (fun _ => []) RankCases.is_unlisted
       RankCases.rating_desc (Cases.request_anonymous None)) /\
  StronglySorted (fun a b => RankCases.performance_points_desc a b = true)
    (FeedContext.top_scorer RankCases.rows (fun _ => []) RankCases.is_unlisted
       RankCases.performance_points_desc (Cases.request_anonymous None)).
Proof.
  destruct (FeedContext_top_lists_best RankCases.rows (fun _ => [])
              RankCases.is_unlisted RankCases.rating_desc
              RankCases.performance_points_desc (Cases.request_anonymous None)
              rating_desc_trans rating_desc_total
              performance_points_desc_trans performance_points_desc_total)
    as [[H1 _] [H2 _]].
  split; assumption.
Defined.

Example top_rated_example :
  map RankCases.name
    (FeedContext.top_rated RankCases.rows (fun _ => []) RankCases.is_unlisted
       RankCases.rating_desc (Cases.request_anonymous None))
  = [2; 13; 10; 5; 7; 11; 1; 8; 4; 9] /\
  map RankCases.name
    (FeedContext.top_scorer RankCases.rows (fun _ => []) RankCases.is_unlisted
       RankCases.performance_points_desc (Cases.request_anonymous None))
  = [12; 7; 4; 5; 6; 11; 10; 9; 8; 1] /\
  FeedContext.top_rated RankCases.rows (fun _ => []) RankCases.is_unlisted
    RankCases.rating_desc (Cases.request_anonymous (Some Cases.org_a)) = [].
Proof. repeat split. Qed.

(** X17: when the scope has at most 10 listed rows, each top list is a
    rearrangement of all of them: nobody is dropped and nobody is repeated. *)
Theorem FeedContext_top_lists_complete_when_few {Row : Type}
    (Profile_objects : list Row) (members : Organization.t -> list Row)
    (is_unlisted : Row -> bool)
    (rating_desc performance_points_desc : Row -> Row -> bool)
    (request : Request.t) :
  (length (List.filter (fun p => negb (is_unlisted p))
             (FeedContext.profile_queryset Profile_objects members request))
   <= 10)%nat ->
  Permutation
    (FeedContext.top_rated Profile_objects members is_unlisted rating_desc request)
    (List.filter (fun p => negb (is_unlisted p))
       (FeedContext.profile_queryset Profile_objects members request)) /\
  Permutation
    (FeedContext.top_scorer Profile_objects members is_unlisted
       performance_points_desc request)
    (List.filter (fun p => negb (is_unlisted p))
       (FeedContext.profile_queryset Profile_objects members request)).
Proof.
  intros Hlen. unfold FeedContext.top_rated, FeedContext.top_scorer.
  split; apply top_all_when_few; exact Hlen.
Qed.

Lemma FeedContext_top_lists_complete_when_few_witness :
  Permutation
    (FeedContext.top_rated RankCases.rows (fun _ => firstn 4 RankCases.rows)
       RankCases.is_unlisted RankCases.rating_desc
       (Cases.request_anonymous (Some Cases.org_a)))
    (List.filter (fun p => negb (RankCases.is_unlisted p)) (firstn 4 RankCases.rows)) /\
  Permutation
    (FeedContext.top_scorer RankCases.rows (fun _ => firstn 4 RankCases.rows)
       RankCases.is_unlisted RankCases.performance_points_desc
       (Cases.request_anonymous (Some Cases.org_a)))
    (List.filter (fun p => negb (RankCases.is_unlisted p)) (firstn 4 RankCases.rows)).
Proof.
  apply (FeedContext_top_lists_complete_when_few RankCases.rows
           (fun _ => firstn 4 RankCases.rows) RankCases.is_unlisted
           RankCases.rating_desc RankCases.performance_points_desc
           (Cases.request_anonymous (Some Cases.org_a))).
  cbn. lia.
Defined.

(** ** FeedView.get_context_data: clarifications *)

Section ClarificationFacts.
Variable objs : list ContestProblemClarification.t.
Variable current_contest : Profile.t -> option ContestParticipation.t.
Variable contest_problems : Contest.t -> list Z.
Variable is_editable_by : Contest.t -> User.t -> bool.
Variable request : Request.t.

Let for_contest (participation : ContestParticipation.t)
  : list ContestProblemClarification.t :=
  filter no_relation
    (Field (fun c =>
              pk_in (ContestProblemClarification.problem c)
                (contest_problems (ContestParticipation.contest participation))))
    objs.

Let untouched : FeedContext.t :=
  {| FeedContext.has_clarifications := false;
     FeedContext.clarifications := None;
     FeedContext.can_edit_contest := None |}.

(** The three ways through the clarification block. *)
Lemma get_context_data_cases :
  Spec.has_profile request = true ->
  (User.is_authenticated (Request.user request) = false /\
   FeedContext.get_context_data objs current_contest contest_problems
     is_editable_by request = Ok untouched) \/
  (exists p,
     User.is_authenticated (Request.user request) = true /\
     Request.profile request = Some p /\ current_contest p = None /\
     FeedContext.get_context_data objs current_contest contest_problems
       is_editable_by request = Ok untouched) \/
  (exists p participation,
     User.is_authenticated (Request.user request) = true /\
     Request.profile request = Some p /\
     current_contest p = Some participation /\
     FeedContext.get_context_data objs current_contest contest_problems
       is_editable_by request
     = Ok {| FeedContext.has_clarifications :=
               (0 <? length (for_contest participation))%nat;
             FeedContext.clarifications :=
               Some (order_by FeedContext.date_desc (for_contest participation));
             FeedContext.can_edit_contest :=
               if is_editable_by (ContestParticipation.contest participation)
                    (Request.user request)
               then Some true else None |}).
Proof.
  unfold Spec.has_profile, FeedContext.get_context_data.
  destruct (User.is_authenticated (Request.user request)); [|left; auto].
  destruct (Request.profile request) as [p|]; [|discriminate]. intros _. right.
  cbn [mbind result_bind].
  destruct (current_contest p) as [participation|] eqn:Hc.
  - right. exists p, participation.
    split; [reflexivity|]. split; [reflexivity|]. split; [exact Hc|].
    fold (for_contest participation).
    destruct (is_editable_by (ContestParticipation.contest participation)
                (Request.user request)); reflexivity.
  - left. exists p. auto.
Qed.

Lemma date_desc_trans (a b c : ContestProblemClarification.t) :
  FeedContext.date_desc a b = true -> FeedContext.date_desc b c = true ->
  FeedContext.date_desc a c = true.
Proof. unfold FeedContext.date_desc. rewrite !Z.leb_le. lia. Qed.

Lemma date_desc_total (a b : ContestProblemClarification.t) :
  FeedContext.date_desc a b = true \/ FeedContext.date_desc b a = true.
Proof. unfold FeedContext.date_desc. rewrite !Z.leb_le. lia. Qed.

Lemma in_for_contest (participation : ContestParticipation.t)
    (c : ContestProblemClarification.t) :
  In c (for_contest participation) <->
  In c objs /\
  In (ContestProblemClarification.problem c)
     (contest_problems (ContestParticipation.contest participation)).
Proof. unfold for_contest. rewrite in_filter_field, pk_in_iff. reflexivity. Qed.

(** X18: "has_clarifications" is set exactly when the "clarifications"
    list is present and non-empty; when present, the list is built only for
    an authenticated viewer inside a contest, is in newest-first order, and
    holds exactly the clarifications of that contest's problems. *)
Theorem FeedContext_clarifications :
  Spec.has_profile request = true ->
  exists context,
    FeedContext.get_context_data objs current_contest contest_problems
      is_editable_by request = Ok context /\
    (FeedContext.has_clarifications context = true <->
     exists l c, FeedContext.clarifications context = Some l /\ In c l) /\
    (forall l, FeedContext.clarifications context = Some l ->
       User.is_authenticated (Request.user request) = true /\
       StronglySorted
         (fun a b => ContestProblemClarification.date b
                     <= ContestProblemClarification.date a) l /\
       exists p participation,
         Request.profile request = Some p /\
         current_contest p = Some participation /\
         forall c, In c l <->
                   In c objs /\
                   In (ContestProblemClarification.problem c)
                      (contest_problems (ContestParticipation.contest participation))).
Proof.
  intros Hwf.
  destruct (get_context_data_cases Hwf)
    as [[Ha ->]|[(p & Ha & Hp & Hc & ->)|(p & part & Ha & Hp & Hc & ->)]];
    eexists; (split; [reflexivity|]);
    cbn [FeedContext.has_clarifications FeedContext.clarifications
         FeedContext.can_edit_contest untouched].
  - split; [|discriminate]. split; [discriminate|]. intros (l & c & H & _). discriminate.
  - split; [|discriminate]. split; [discriminate|]. intros (l & c & H & _). discriminate.
  - split.
    + rewrite Nat.ltb_lt. split.
      * intros Hpos. destruct (for_contest part) as [|c l] eqn:Hl; [simpl in Hpos; lia|].
        exists (order_by FeedContext.date_desc (c :: l)), c.
        split; [reflexivity|]. apply in_order_by. left. reflexivity.
      * intros (l & c & [= <-] & Hin). apply in_order_by in Hin.
        destruct (for_contest part); [destruct Hin | simpl; lia].
    + intros l [= <-]. split; [exact Ha|]. split.
      * apply (sorted_weaken (fun a b => FeedContext.date_desc a b = true)).
        -- intros a b. unfold FeedContext.date_desc. apply Z.leb_le.
        -- apply order_by_sorted; [apply date_desc_trans | apply date_desc_total].
      * exists p, part. split; [exact Hp|]. split; [exact Hc|].
        intros c. rewrite in_order_by. apply in_for_contest.
Qed.

(** X19: "can_edit_contest" is never set to False; it is set to True
    exactly for an authenticated viewer inside a contest that
    [is_editable_by] the user. *)
Theorem FeedContext_can_edit_contest :
  Spec.has_profile request = true ->
  exists context,
    FeedContext.get_context_data objs current_contest contest_problems
      is_editable_by request = Ok context /\
    FeedContext.can_edit_contest context <> Some false /\
    (FeedContext.can_edit_contest context = Some true <->
     User.is_authenticated (Request.user request) = true /\
     exists p participation,
       Request.profile request = Some p /\
       current_contest p = Some participation /\
       is_editable_by (ContestParticipation.contest participation)
         (Request.user request) = true).
Proof.
  intros Hwf.
  destruct (get_context_data_cases Hwf)
    as [[Ha ->]|[(p & Ha & Hp & Hc & ->)|(p & part & Ha & Hp & Hc & ->)]];
    eexists; (split; [reflexivity|]);
    cbn [FeedContext.has_clarifications FeedContext.clarifications
         FeedContext.can_edit_contest untouched].
  - split; [discriminate|]. split; [discriminate|]. intros [H _]. congruence.
  - split; [discriminate|]. split; [discriminate|].
    intros (_ & p' & part & Hp' & Hc' & _). congruence.
  - destruct (is_editable_by (ContestParticipation.contest part) (Request.user request))
      eqn:He.
    + split; [discriminate|]. split; [|reflexivity]. intros _.
      split; [exact Ha|]. exists p, part. auto.
    + split; [discriminate|]. split; [discriminate|].
      intros (_ & p' & part' & Hp' & Hc' & He'). congruence.
Qed.
End ClarificationFacts.

Lemma FeedContext_clarifications_witness :
  exists context,
    FeedContext.get_context_data ClarificationCases.objs
      ClarificationCases.current_contest ClarificationCases.contest_problems
      ClarificationCases.is_editable_by (Cases.request_member [] None) = Ok context /\
    FeedContext.has_clarifications context = true /\
    FeedContext.clarifications context
    = Some [ClarificationCases.clarification 2 9; ClarificationCases.clarification 1 7;
            ClarificationCases.clarification 1 5].
Proof.
  destruct (FeedContext_clarifications ClarificationCases.objs
              ClarificationCases.current_contest ClarificationCases.contest_problems
              ClarificationCases.is_editable_by (Cases.request_member [] None)
              eq_refl) as (context & Hc & _).
  exists context. split; [exact Hc|].
  vm_compute in Hc. injection Hc as <-. split; reflexivity.
Defined.

Lemma FeedContext_can_edit_contest_witness :
  exists context,
    FeedContext.get_context_data ClarificationCases.objs
      ClarificationCases.current_contest ClarificationCases.contest_problems
      ClarificationCases.is_editable_by Cases.request_staff = Ok context /\
    FeedContext.can_edit_contest context <> Some false /\
    (FeedContext.can_edit_contest context = Some true <->
     User.is_authenticated (Request.user Cases.request_staff) = true /\
     exists p participation,
       Request.profile Cases.request_staff = Some p /\
       ClarificationCases.current_contest p = Some participation /\
       ClarificationCases.is_editable_by (ContestParticipation.contest participation)
         (Request.user Cases.request_staff) = true).
Proof.
  apply (FeedContext_can_edit_contest ClarificationCases.objs
           ClarificationCases.current_contest ClarificationCases.contest_problems
           ClarificationCases.is_editable_by Cases.request_staff).
  reflexivity.
Defined.

Example FeedContext_anonymous :
  FeedContext.get_context_data ClarificationCases.objs
    ClarificationCases.current_contest ClarificationCases.contest_problems
    ClarificationCases.is_editable_by (Cases.request_anonymous None)
  = Ok {| FeedContext.has_clarifications := false;
          FeedContext.clarifications := None;
          FeedContext.can_edit_contest := None |}.
Proof. reflexivity. Qed.
